(** * GLIMPSE concordance "errors by sample" reports: a model of the parser

    A shallow embedding of [multiqc/modules/glimpse/err_spl.py] and of the
    counting logic of [multiqc/modules/glimpse/glimpse.py], with the
    properties the specification states about them.

    Text is modelled as [string]: a sequence of code points below 256 (one
    [ascii] per code point).  On this domain the classes of characters that
    the Python built-ins consult are finite and written out below.

    Layout: the Python built-ins the parser calls ([Py]), the data model, the
    parser and the module glue, then the lemmas. *)

From Stdlib Require Import ZArith Ascii String List Floats.
From stdpp Require Import gmap strings list pretty.

Set Warnings "-inexact-float".
Local Open Scope string_scope.

(** ** Python built-ins used by the parser *)

Module Py.

(** Code point of a character. *)
Definition ord (c : ascii) : N := N_of_ascii c.

Definition in_range (lo hi : N) (c : ascii) : bool :=
  ((lo <=? ord c) && (ord c <=? hi))%N.

(** [str.isspace] on one character: the code points below 256 that Unicode
    classes as whitespace (TAB..CR, FS..US, SPACE, NEL, NBSP). *)
Definition isspace (c : ascii) : bool :=
  in_range 9 13 c || in_range 28 32 c || (ord c =? 133)%N || (ord c =? 160)%N.

(** The line boundaries of [str.splitlines]: LF, VT, FF, CR, FS, GS, RS, NEL
    (CR LF counts as one boundary, see [splitlines]). *)
Definition is_linebreak (c : ascii) : bool :=
  in_range 10 13 c || in_range 28 30 c || (ord c =? 133)%N.

(** The whitespace that [int] and [float] skip around a number: the ASCII
    C whitespace, and NEL and NBSP (which the interpreter first rewrites to a
    space); FS..US are not skipped. *)
Definition is_number_space (c : ascii) : bool :=
  in_range 9 13 c || (ord c =? 32)%N || (ord c =? 133)%N || (ord c =? 160)%N.

Definition isdigit (c : ascii) : bool := in_range 48 57 c.

(** [str.splitlines()]: no trailing empty line, [""] gives no line at all. *)
Fixpoint splitlines (s : string) : list string :=
  match s with
  | EmptyString => []
  | String c rest =>
      if is_linebreak c then
        if Ascii.eqb c "013" then
          match rest with
          | String c' rest' =>
              if Ascii.eqb c' "010" then EmptyString :: splitlines rest'
              else EmptyString :: splitlines rest
          | EmptyString => EmptyString :: splitlines rest
          end
        else EmptyString :: splitlines rest
      else
        match splitlines rest with
        | [] => [String c EmptyString]
        | l :: ls => String c l :: ls
        end
  end.

Fixpoint lstrip_by (p : ascii -> bool) (s : string) : string :=
  match s with
  | EmptyString => EmptyString
  | String c rest => if p c then lstrip_by p rest else s
  end.

Fixpoint rstrip_by (p : ascii -> bool) (s : string) : string :=
  match s with
  | EmptyString => EmptyString
  | String c rest =>
      match rstrip_by p rest with
      | EmptyString => if p c then EmptyString else String c EmptyString
      | r => String c r
      end
  end.

Definition strip_by (p : ascii -> bool) (s : string) : string :=
  rstrip_by p (lstrip_by p s).

(** [str.strip()] *)
Definition strip (s : string) : string := strip_by isspace s.

(** [str.split(sep)] for a one-character separator: empty tokens are kept and
    the result is never empty. *)
Fixpoint split (sep : ascii) (s : string) : list string :=
  match s with
  | EmptyString => [EmptyString]
  | String c rest =>
      if Ascii.eqb c sep then EmptyString :: split sep rest
      else
        match split sep rest with
        | [] => [String c EmptyString]
        | t :: ts => String c t :: ts
        end
  end.

(** [sep.join(tokens)] *)
Fixpoint join (sep : ascii) (tokens : list string) : string :=
  match tokens with
  | [] => EmptyString
  | [t] => t
  | t :: ts => t +:+ String sep (join sep ts)
  end.

(** Underscores in numeric literals: each must stand between two digits; they
    are removed before the number is read.  [prev] tells whether the previous
    character was a digit. *)
Fixpoint drop_underscores (prev : bool) (s : string) : option string :=
  match s with
  | EmptyString => Some EmptyString
  | String c rest =>
      if Ascii.eqb c "_" then
        match rest with
        | String d _ =>
            if prev && isdigit d then drop_underscores false rest else None
        | EmptyString => None
        end
      else option_map (String c) (drop_underscores (isdigit c) rest)
  end.

Definition digit_value (c : ascii) : N := (ord c - 48)%N.

(** Value of a run of decimal digits, most significant first; [None] when a
    character is not a digit. *)
Fixpoint digits_value (acc : N) (s : string) : option N :=
  match s with
  | EmptyString => Some acc
  | String c rest =>
      if isdigit c then digits_value (acc * 10 + digit_value c) rest else None
  end.

(** A non-empty run of digits. *)
Definition number (s : string) : option N :=
  match s with
  | EmptyString => None
  | _ => digits_value 0 s
  end.

(** An optional sign: [true] for minus, and the rest of the text. *)
Definition take_sign (s : string) : bool * string :=
  match s with
  | String c rest =>
      if Ascii.eqb c "-" then (true, rest)
      else if Ascii.eqb c "+" then (false, rest)
      else (false, s)
  | EmptyString => (false, s)
  end.

(** The most digits that an integer may have when it is read from a text or
    written as one: the interpreter's default,
    [sys.get_int_max_str_digits()]. *)
Definition MAX_STR_DIGITS : Z := 4300.

(** [int(s)] for a text [s] in base ten; [None] stands for [ValueError]:
    the text is not an integer literal, or it has more digits (leading
    zeros counted, sign and underscores not) than [MAX_STR_DIGITS]. *)
Definition int (s : string) : option Z :=
  match drop_underscores false (strip_by is_number_space s) with
  | None => None
  | Some t =>
      let '(neg, body) := take_sign t in
      match number body with
      | Some n =>
          if (MAX_STR_DIGITS <? Z.of_nat (String.length body))%Z then None
          else Some (if neg then (- Z.of_N n)%Z else Z.of_N n)
      | None => None
      end
  end.

(** *** [float] *)

Definition lower (c : ascii) : ascii :=
  if in_range 65 90 c then ascii_of_N (ord c + 32) else c.

Fixpoint lowercase (s : string) : string :=
  match s with
  | EmptyString => EmptyString
  | String c rest => String (lower c) (lowercase rest)
  end.

(** The longest prefix of digits, and what follows it. *)
Fixpoint span_digits (s : string) : string * string :=
  match s with
  | EmptyString => (EmptyString, EmptyString)
  | String c rest =>
      if isdigit c then
        let '(ds, r) := span_digits rest in (String c ds, r)
      else (EmptyString, s)
  end.

(** The exponent part of a decimal literal: nothing, or [e] or [E], an
    optional sign and at least one digit. *)
Definition exponent (s : string) : option Z :=
  match s with
  | EmptyString => Some 0%Z
  | String c rest =>
      if Ascii.eqb (lower c) "e" then
        let '(neg, ds) := take_sign rest in
        match number ds with
        | Some n => Some (if neg then (- Z.of_N n)%Z else Z.of_N n)
        | None => None
        end
      else None
  end.

(** A decimal literal [digits [. digits] [exponent]] with at least one digit
    before the exponent, read as the pair [(m, e)] that stands for
    [m * 10 ^ e]. *)
Definition decimal (s : string) : option (N * Z) :=
  let '(ip, r1) := span_digits s in
  let '(fp, r2) :=
    match r1 with
    | String c r =>
        if Ascii.eqb c "." then span_digits r else (EmptyString, r1)
    | EmptyString => (EmptyString, r1)
    end in
  match number (ip +:+ fp), exponent r2 with
  | Some m, Some e => Some (m, (e - Z.of_nat (String.length fp))%Z)
  | _, _ => None
  end.

(** The binary64 number nearest to [m * 10 ^ e] (ties to even, overflow to
    an infinity, underflow to a subnormal number or zero): the correctly
    rounded quotient of two integers, by the library's IEEE 754 division. *)
Definition round_decimal (neg : bool) (m : N) (e : Z) : spec_float :=
  match m with
  | N0 => S754_zero neg
  | Npos p =>
      let num := Z.to_pos (Zpos p * 10 ^ Z.max e 0) in
      let den := Z.to_pos (10 ^ Z.max (- e) 0) in
      SFdiv prec emax (S754_finite neg num 0) (S754_finite false den 0)
  end.

(** [float(s)] for a text [s]; [None] stands for [ValueError]. *)
Definition float (s : string) : option spec_float :=
  match drop_underscores false s with
  | None => None
  | Some t =>
      let '(neg, body) := take_sign (strip_by is_number_space t) in
      let word := lowercase body in
      if String.eqb word "inf" || String.eqb word "infinity" then
        Some (S754_infinity neg)
      else if String.eqb word "nan" then Some S754_nan
      else
        match decimal body with
        | Some (m, e) => Some (round_decimal neg m e)
        | None => None
        end
  end.

(** *** Writing numbers *)

(** The decimal text of an integer, and the number of its digits. *)
Definition int_text (n : Z) : string := pretty n.

Definition decimal_digits (n : Z) : Z :=
  Z.of_nat (String.length (int_text (Z.abs n))).

(** [str(n)] for an integer [n]; [None] stands for [ValueError]: the
    integer has more digits than [MAX_STR_DIGITS]. *)
Definition str_int (n : Z) : option string :=
  if (MAX_STR_DIGITS <? decimal_digits n)%Z then None else Some (int_text n).

Fixpoint zeros (n : nat) : string :=
  match n with
  | O => EmptyString
  | S n' => String "0" (zeros n')
  end.

(** The first [n] characters of a text, and the rest. *)
Fixpoint split_at (n : nat) (s : string) : string * string :=
  match n, s with
  | S n', String c rest => let '(a, b) := split_at n' rest in (String c a, b)
  | _, _ => (EmptyString, s)
  end.

(** The digits [ds] with the decimal point [k] places from the right, after
    a zero and as many zeros as needed when there are no more than [k]
    digits; no point when [k] is zero. *)
Definition place_point (ds : string) (k : nat) : string :=
  match k with
  | O => ds
  | S _ =>
      let n := String.length ds in
      if (k <? n)%nat then
        let '(ip, fp) := split_at (n - k) ds in ip +:+ String "." fp
      else String "0" (String "." (zeros (k - n) +:+ ds))
  end.

(** [m / 2 ^ k] in lowest terms. *)
Fixpoint reduce (m : positive) (k : nat) : positive * nat :=
  match k, m with
  | S k', xO m' => reduce m' k'
  | _, _ => (m, k)
  end.

Definition sign_text (neg : bool) : string := if neg then "-" else "".

(** The exact value of a float in positional decimal notation, as
    [format(decimal.Decimal(x), "f")] writes it: [m * 2 ^ e] is an integer
    when [e] is not negative, and [m' * 5 ^ k] with the point [k] places
    from the right when it is [m' / 2 ^ k] in lowest terms. *)
Definition decimal_str (x : spec_float) : string :=
  match x with
  | S754_zero neg => sign_text neg +:+ "0"
  | S754_infinity neg => sign_text neg +:+ "Infinity"
  | S754_nan => "NaN"
  | S754_finite neg m e =>
      sign_text neg +:+
      (if (0 <=? e)%Z then pretty (Npos m * 2 ^ Z.to_N e)%N
       else
         let '(m', k) := reduce m (Z.to_nat (- e)) in
         place_point (pretty (Npos m' * 5 ^ N.of_nat k)%N) k)
  end.

(** Equality [==] of two floats: a NaN equals nothing, the two zeros are
    equal. *)
Definition float_eq (x y : spec_float) : bool := SFeqb x y.

End Py.

(** ** Data model *)

(** A value stored in a record: [str], [int] or [float]. *)
Inductive value : Type :=
  | VStr (s : string)
  | VInt (n : Z)
  | VFloat (x : spec_float).

(** One [dict(variants=..., bins=..., ...)]: the items in keyword order. *)
Definition record : Type := list (string * value).

(** The exceptions that the modelled code can raise. *)
Inductive exn : Type :=
  | IndexError
  | ValueError
  | NameError
  | ModuleNoSamplesFound.

Inductive level : Type := DEBUG | WARNING.

(** One call of the [logging] module. *)
Record log_record : Type := LogRecord { log_level : level; log_message : string }.

Definition is_some {A : Type} (o : option A) : bool :=
  match o with Some _ => true | None => false end.

Inductive result (A : Type) : Type :=
  | Ok (a : A)
  | Raise (e : exn).
Arguments Ok {A} a.
Arguments Raise {A} e.

Definition is_some_result {A : Type} (r : result A) : bool :=
  match r with Ok _ => true | Raise _ => false end.

(** A computation that logs and then returns or raises. *)
Definition M (A : Type) : Type := list log_record * result A.

Definition raise {A : Type} (e : exn) : M A := ([], Raise e).
Definition warning (msg : string) : M unit := ([LogRecord WARNING msg], Ok tt).
Definition debug (msg : string) : M unit := ([LogRecord DEBUG msg], Ok tt).

#[global] Instance M_ret : MRet M := λ A a, ([], Ok a).
#[global] Instance M_bind : MBind M := λ A B k m,
  match m with
  | (l, Ok a) => let '(l', r) := k a in ((l ++ l')%list, r)
  | (l, Raise e) => (l, Raise e)
  end.

Definition logged {A : Type} (m : M A) : list log_record := fst m.
Definition outcome {A : Type} (m : M A) : result A := snd m.

(** A log file handed over by the host's file search: [f["s_name"]] and
    [f["f"]], the text of the file. *)
Record LogFile : Type := { f_s_name : string; f_f : string }.

(** ** The parser, [err_spl.py] *)

Definition EXPECTED_COLUMNS : list string :=
  [ "#GCsS"; "id"; "sample_name"; "#val_gt_RR"; "#val_gt_RA"; "#val_gt_AA";
    "#filtered_gp"; "RR_hom_matches"; "RA_het_matches"; "AA_hom_matches";
    "RR_hom_mismatches"; "RA_het_mismatches"; "AA_hom_mismatches";
    "RR_hom_mismatches_rate_percent"; "RA_het_mismatches_rate_percent";
    "AA_hom_mimatches"; "non_reference_discordanc_rate_percent";
    "best_gt_rsquared"; "imputed_ds_rsquared" ].

Definition expected_header : string := "#Genotype concordance by sample (SNPs)".

(** [int(tok)] and [float(tok)] as computations. *)
Definition to_int (tok : string) : M Z :=
  match Py.int tok with Some n => mret n | None => raise ValueError end.

Definition to_float (tok : string) : M spec_float :=
  match Py.float tok with Some x => mret x | None => raise ValueError end.

(** Lines 239-259: the tuple assignment, which raises [ValueError] unless
    there are exactly nineteen tokens, and the [dict(...)] call, whose
    arguments are evaluated in order.  Returns the key and the record. *)
Definition parse_fields (fields : list string) : M (string * record) :=
  match fields with
  | [ variants; bins; sample_name; val_gt_RR; val_gt_RA; val_gt_AA;
      filtered_gp; RR_hom_matches; RA_het_matches; AA_hom_matches;
      RR_hom_mismatches; RA_het_mismatches; AA_hom_mismatches;
      RR_hom_mismatches_rate_percent; RA_het_mismatches_rate_percent;
      AA_hom_mismatches_rate_percent; non_reference_discordanc_rate_percent;
      best_gt_rsquared; imputed_ds_rsquared ] =>
      v1 ← to_int bins;
      v2 ← to_int val_gt_RR;
      v3 ← to_int val_gt_RA;
      v4 ← to_int val_gt_AA;
      v5 ← to_int filtered_gp;
      v6 ← to_int RR_hom_matches;
      v7 ← to_int RA_het_matches;
      v8 ← to_int AA_hom_matches;
      v9 ← to_int RR_hom_mismatches;
      v10 ← to_int RA_het_mismatches;
      v11 ← to_int AA_hom_mismatches;
      x1 ← to_float RR_hom_mismatches_rate_percent;
      x2 ← to_float RA_het_mismatches_rate_percent;
      x3 ← to_float AA_hom_mismatches_rate_percent;
      x4 ← to_float non_reference_discordanc_rate_percent;
      x5 ← to_float best_gt_rsquared;
      x6 ← to_float imputed_ds_rsquared;
      mret (sample_name,
            [ ("variants", VStr variants);
              ("bins", VInt v1);
              ("val_gt_RR", VInt v2);
              ("val_gt_RA", VInt v3);
              ("val_gt_AA", VInt v4);
              ("filtered_gp", VInt v5);
              ("RR_hom_matches", VInt v6);
              ("RA_het_matches", VInt v7);
              ("AA_hom_matches", VInt v8);
              ("RR_hom_mismatches", VInt v9);
              ("RA_het_mismatches", VInt v10);
              ("AA_hom_mismatches", VInt v11);
              ("RR_hom_mismatches_rate_percent", VFloat x1);
              ("RA_het_mismatches_rate_percent", VFloat x2);
              ("AA_hom_mismatches_rate_percent", VFloat x3);
              ("non_reference_discordanc_rate_percent", VFloat x4);
              ("best_gt_rsquared", VFloat x5);
              ("imputed_ds_rsquared", VFloat x6) ])
  | _ => raise ValueError
  end.

(** The message of line 238. *)
Definition skipping_message (fields : list string) (line : string) : string :=
  "Skipping line with " +:+ pretty (length fields) +:+ " fields, expected "
  +:+ pretty (length EXPECTED_COLUMNS) +:+ ": " +:+ line.

(** The message of line 230. *)
Definition header_message (got : string) : string :=
  "Expected header for samtools coverage: " +:+ expected_header
  +:+ ", got: " +:+ got.

(** Lines 234-259, the body of the loop: [fields[0][0]] raises [IndexError]
    on an empty first token; a comment leaves the mapping as it is
    ([continue]); a wrong number of tokens is logged, and control goes on to
    the tuple assignment. *)
Definition parse_line (parsed_data : gmap string record) (line : string)
    : M (gmap string record) :=
  let fields := Py.split " " (Py.strip line) in
  match fields with
  | [] => raise IndexError
  | EmptyString :: _ => raise IndexError
  | String c _ :: _ =>
      if Ascii.eqb c "#" then mret parsed_data
      else
        (if negb (Nat.eqb (length fields) (length EXPECTED_COLUMNS))
         then warning (skipping_message fields line) else mret tt) ;;
        '(sample_name, r) ← parse_fields fields;
        mret (<[sample_name := r]> parsed_data)
  end.

(** The [for] loop of line 233. *)
Fixpoint parse_lines (parsed_data : gmap string record) (lines : list string)
    : M (gmap string record) :=
  match lines with
  | [] => mret parsed_data
  | line :: rest =>
      parsed_data' ← parse_line parsed_data line;
      parse_lines parsed_data' rest
  end.

(** Lines 226-261; [lines[0]] raises [IndexError] when there is no line. *)
Definition parse_err_spl_report (f : LogFile) : M (gmap string record) :=
  let lines := Py.splitlines (f_f f) in
  match lines with
  | [] => raise IndexError
  | first :: rest =>
      if negb (String.eqb first expected_header) then
        warning (header_message first) ;; mret ∅
      else parse_lines ∅ rest
  end.

(** ** The module glue, [parse_glimpse_err_spl] and [MultiqcModule.__init__] *)

Definition duplicate_message (s_name : string) : string :=
  "Duplicate sample name found! Overwriting: " +:+ s_name.

(** Lines 21-27 of [err_spl.py]: the loop over the files found (the call of
    [add_data_source], which only informs the host, is left out). *)
Fixpoint collect_err_spl (data_by_sample : gmap string (gmap string record))
    (files : list LogFile) : M (gmap string (gmap string record)) :=
  match files with
  | [] => mret data_by_sample
  | f :: rest =>
      metrics ← parse_err_spl_report f;
      if (0 <? size metrics)%nat then
        (if is_some (data_by_sample !! f_s_name f)
         then debug (duplicate_message (f_s_name f)) else mret tt) ;;
        collect_err_spl (<[f_s_name f := metrics]> data_by_sample) rest
      else collect_err_spl data_by_sample rest
  end.

Section Host.

(** What the host framework supplies: the files found under the search key
    ["glimpse/err_spl"] and the filter of ignored sample names.  The steps
    of lines 33-45, taken on data that are not empty, are the parameter
    [render], so that what is proved of the function holds whatever these
    steps do; the steps that the source has are [render_err_spl] below.  The
    sibling parser of [err_grp.py] is not among the sources at hand; a run
    of it is taken as given. *)
Variable find_log_files : list LogFile.
Variable ignore_samples :
  gmap string (gmap string record) → gmap string (gmap string record).
Variable render : gmap string (gmap string record) → M unit.
Variable parse_glimpse_err_grp : M Z.

(** [ErrSplReportMixin.parse_glimpse_err_spl] *)
Definition parse_glimpse_err_spl : M Z :=
  data_by_sample ← collect_err_spl ∅ find_log_files;
  let data_by_sample := ignore_samples data_by_sample in
  if Nat.eqb (size data_by_sample) 0 then mret 0%Z
  else
    render data_by_sample ;;
    mret (Z.of_nat (size data_by_sample)).

(** [MultiqcModule.__init__], from line 36 on. *)
Definition MultiqcModule_init : M unit :=
  let n_reports_found := 1%Z in
  n ← parse_glimpse_err_spl;
  let n_reports_found := (n_reports_found + n)%Z in
  n ← parse_glimpse_err_grp;
  let n_reports_found := (n_reports_found + n)%Z in
  if (n_reports_found =? 0)%Z then raise ModuleNoSamplesFound
  else mret tt.

End Host.

(** ** The steps of lines 33-45 *)

(** [summary_table], lines 50-183.  The dictionary of headers is a literal.
    The call of [self.add_section] evaluates its arguments in order: three
    literals, then [table.plot(...)].  No [table] is imported or defined in
    the module (nor [copy], nor [table_data] of line 183), so the lookup of
    the name raises [NameError] before anything is handed to the host. *)
Definition summary_table (data_by_sample : gmap string (gmap string record))
    : M unit :=
  raise NameError.

(** [accuracy_by_sample], lines 184-208: the plot configuration is a literal,
    and the data go to the host's [scatter.plot] and [add_section], here
    [add_scatter_section]. *)
Definition accuracy_by_sample
    (add_scatter_section : gmap string (gmap string record) → M unit)
    (data_by_sample : gmap string (gmap string record)) : M unit :=
  add_scatter_section data_by_sample.

(** Lines 33-45 of [parse_glimpse_err_spl]: the host's
    [add_software_version] and [write_data_file], then the two functions
    above. *)
Definition render_err_spl (add_software_version : M unit)
    (write_data_file : gmap string (gmap string record) → M unit)
    (add_scatter_section : gmap string (gmap string record) → M unit)
    (data_by_sample : gmap string (gmap string record)) : M unit :=
  add_software_version ;;
  write_data_file data_by_sample ;;
  summary_table data_by_sample ;;
  accuracy_by_sample add_scatter_section data_by_sample.

(** ** Vocabulary of the specification *)

(** The tokens of a line, as the loop body computes them. *)
Definition fields_of (line : string) : list string :=
  Py.split " " (Py.strip line).

(** A comment: the first token starts with [#]. *)
Definition is_comment (line : string) : bool :=
  match fields_of line with
  | String c _ :: _ => Ascii.eqb c "#"
  | _ => false
  end.

(** An empty or whitespace-only line. *)
Definition is_blank (line : string) : bool :=
  String.eqb (Py.strip line) EmptyString.

(** What each of the nineteen positions holds. *)
Inductive slot : Type := SText | SName | SInt | SFloat.

Definition SLOTS : list slot :=
  [ SText; SInt; SName; SInt; SInt; SInt; SInt; SInt; SInt; SInt; SInt; SInt;
    SInt; SFloat; SFloat; SFloat; SFloat; SFloat; SFloat ].

Definition coerces (sl : slot) (tok : string) : bool :=
  match sl with
  | SText | SName => true
  | SInt => is_some (Py.int tok)
  | SFloat => is_some (Py.float tok)
  end.

Fixpoint all_coerce (slots : list slot) (fields : list string) : bool :=
  match slots, fields with
  | [], [] => true
  | sl :: slots', tok :: fields' => coerces sl tok && all_coerce slots' fields'
  | _, _ => false
  end.

(** An accepted data line: not blank, not a comment, nineteen tokens, every
    numeric token coerced.  Gives the key and the record. *)
Definition accepted (line : string) : option (string * record) :=
  if is_blank line || is_comment line then None
  else
    match outcome (parse_fields (fields_of line)) with
    | Ok kr => Some kr
    | Raise _ => None
    end.

(** A line that the loop passes without raising. *)
Definition tolerated (line : string) : bool :=
  is_comment line || is_some (accepted line).

(** A non-comment line of nineteen tokens with a numeric token that does not
    coerce. *)
Definition bad_number (line : string) : bool :=
  negb (is_blank line) && negb (is_comment line)
  && Nat.eqb (length (fields_of line)) (length EXPECTED_COLUMNS)
  && negb (all_coerce SLOTS (fields_of line)).

Inductive kind : Type := KStr | KInt | KFloat.

Definition kind_of (v : value) : kind :=
  match v with VStr _ => KStr | VInt _ => KInt | VFloat _ => KFloat end.

Definition kind_eqb (a b : kind) : bool :=
  match a, b with
  | KStr, KStr | KInt, KInt | KFloat, KFloat => true
  | _, _ => false
  end.

(** How many fields of a record hold a value of kind [k]. *)
Definition count_kind (k : kind) (r : record) : nat :=
  length (filter (λ kv, kind_eqb (kind_of (snd kv)) k = true) r).

(** The one-character text of a line feed. *)
Definition LF : string := String "010" EmptyString.

(** A report of the header line followed by the given lines. *)
Definition report (s_name : string) (lines : list string) : LogFile :=
  {| f_s_name := s_name;
     f_f := Py.join "010" (expected_header :: lines) |}.

(** *** The Record of the round-trip property

    The Record as the specification describes it for its round trip: the
    group label, the bin identifier and the sixteen typed values (ten counts
    and six floating-point measures) that follow the sample name on a line;
    the sample name is the key and is not stored. *)

Module Rec.

Record t : Type := mk {
  variants : string;
  bins : Z;
  val_gt_RR : Z;
  val_gt_RA : Z;
  val_gt_AA : Z;
  filtered_gp : Z;
  RR_hom_matches : Z;
  RA_het_matches : Z;
  AA_hom_matches : Z;
  RR_hom_mismatches : Z;
  RA_het_mismatches : Z;
  AA_hom_mismatches : Z;
  RR_hom_mismatches_rate_percent : spec_float;
  RA_het_mismatches_rate_percent : spec_float;
  AA_hom_mismatches_rate_percent : spec_float;
  non_reference_discordanc_rate_percent : spec_float;
  best_gt_rsquared : spec_float;
  imputed_ds_rsquared : spec_float
}.

(** The integer values in positional order, the bin identifier apart. *)
Definition counts (r : t) : list Z :=
  [ val_gt_RR r; val_gt_RA r; val_gt_AA r; filtered_gp r; RR_hom_matches r;
    RA_het_matches r; AA_hom_matches r; RR_hom_mismatches r;
    RA_het_mismatches r; AA_hom_mismatches r ].

(** The floating-point values in positional order. *)
Definition measures (r : t) : list spec_float :=
  [ RR_hom_mismatches_rate_percent r; RA_het_mismatches_rate_percent r;
    AA_hom_mismatches_rate_percent r; non_reference_discordanc_rate_percent r;
    best_gt_rsquared r; imputed_ds_rsquared r ].

(** The Record as the mapping from field name to value that the parser
    builds. *)
Definition to_dict (r : t) : record :=
  [ ("variants", VStr (variants r));
    ("bins", VInt (bins r));
    ("val_gt_RR", VInt (val_gt_RR r));
    ("val_gt_RA", VInt (val_gt_RA r));
    ("val_gt_AA", VInt (val_gt_AA r));
    ("filtered_gp", VInt (filtered_gp r));
    ("RR_hom_matches", VInt (RR_hom_matches r));
    ("RA_het_matches", VInt (RA_het_matches r));
    ("AA_hom_matches", VInt (AA_hom_matches r));
    ("RR_hom_mismatches", VInt (RR_hom_mismatches r));
    ("RA_het_mismatches", VInt (RA_het_mismatches r));
    ("AA_hom_mismatches", VInt (AA_hom_mismatches r));
    ("RR_hom_mismatches_rate_percent", VFloat (RR_hom_mismatches_rate_percent r));
    ("RA_het_mismatches_rate_percent", VFloat (RA_het_mismatches_rate_percent r));
    ("AA_hom_mismatches_rate_percent", VFloat (AA_hom_mismatches_rate_percent r));
    ("non_reference_discordanc_rate_percent",
      VFloat (non_reference_discordanc_rate_percent r));
    ("best_gt_rsquared", VFloat (best_gt_rsquared r));
    ("imputed_ds_rsquared", VFloat (imputed_ds_rsquared r)) ].

End Rec.

(** Equality [==] of two stored values, and of two records whose items come
    in the same order. *)
Definition value_eq (a b : value) : bool :=
  match a, b with
  | VStr s, VStr s' => String.eqb s s'
  | VInt n, VInt n' => (n =? n')%Z
  | VFloat x, VFloat x' => Py.float_eq x x'
  | _, _ => false
  end.

Fixpoint record_eq (r r' : record) : bool :=
  match r, r' with
  | [], [] => true
  | (k, v) :: r1, (k', v') :: r1' =>
      String.eqb k k' && value_eq v v' && record_eq r1 r1'
  | _, _ => false
  end.

(** Every character of a text satisfies [q]. *)
Fixpoint all_chars (q : ascii → bool) (s : string) : bool :=
  match s with
  | EmptyString => true
  | String c rest => q c && all_chars q rest
  end.

(** A text that can stand between two separators of a line and be read back
    as one token: no space, no line boundary. *)
Definition is_token (t : string) : bool :=
  all_chars (λ c, negb (Ascii.eqb c " ") && negb (Py.is_linebreak c)) t.

(** A label that can open a data line: a non-empty token that starts neither
    with whitespace nor with the comment marker. *)
Definition is_label (t : string) : bool :=
  is_token t &&
  match t with
  | String c _ => negb (Py.isspace c) && negb (Ascii.eqb c "#")
  | EmptyString => false
  end.

(** [t] is a way of writing the float [x]: a text without whitespace that
    [float] reads back as [x], and [x] is a number (it equals itself). *)
Definition writes_float (x : spec_float) (t : string) : Prop :=
  Py.float t = Some x ∧
  all_chars (λ c, negb (Py.isspace c)) t = true ∧
  Py.float_eq x x = true.

(** The characters of a decimal numeral without sign and exponent. *)
Definition numeral_char (c : ascii) : bool :=
  Py.isdigit c || Ascii.eqb c ".".

(** A float that is a number: a well-formed binary64 value that is not a
    NaN (it equals itself). *)
Definition is_number (x : spec_float) : bool :=
  valid_binary x && Py.float_eq x x.

(** The nineteen positional values of a Record: label, bin identifier,
    sample name, the counts and the measures. *)
Definition positional (sample_name : string) (r : Rec.t) : list value :=
  ([ VStr (Rec.variants r); VInt (Rec.bins r); VStr sample_name ]
   ++ map VInt (Rec.counts r) ++ map VFloat (Rec.measures r))%list.

(** The text of one value: a text as it is, an integer as [str] writes it
    ([None] when [str] raises), a float as its exact decimal expansion. *)
Definition write_value (v : value) : option string :=
  match v with
  | VStr s => Some s
  | VInt n => Py.str_int n
  | VFloat x => Some (Py.decimal_str x)
  end.

Definition tokens_of (sample_name : string) (r : Rec.t)
    : option (list string) :=
  mapM write_value (positional sample_name r).

(** The line of a Record: its tokens separated by single spaces. *)
Definition serialise (sample_name : string) (r : Rec.t) : option string :=
  Py.join " " <$> tokens_of sample_name r.

(** What a line does to the mapping when the body returns. *)
Definition line_effect (parsed_data : gmap string record) (line : string)
    : gmap string record :=
  match accepted line with
  | Some (k, r) => <[k := r]> parsed_data
  | None => parsed_data
  end.

(** The value [v] is the token [tok], kept as text or coerced. *)
Definition stores (tok : string) (v : value) : Prop :=
  match v with
  | VStr s => s = tok
  | VInt n => Py.int tok = Some n
  | VFloat x => Py.float tok = Some x
  end.

(** ** Sample inputs *)

(** The data line of the specification's example and its record. *)
Definition example_line : string :=
  "GCsS 0 NA12878 851 3 0 0 602 0 0 3 1 0 0.496 100.000 0.000 100.000 0.000008 0.000008".

Definition example_record : record :=
  [ ("variants", VStr "GCsS");
    ("bins", VInt 0);
    ("val_gt_RR", VInt 851);
    ("val_gt_RA", VInt 3);
    ("val_gt_AA", VInt 0);
    ("filtered_gp", VInt 0);
    ("RR_hom_matches", VInt 602);
    ("RA_het_matches", VInt 0);
    ("AA_hom_matches", VInt 0);
    ("RR_hom_mismatches", VInt 3);
    ("RA_het_mismatches", VInt 1);
    ("AA_hom_mismatches", VInt 0);
    ("RR_hom_mismatches_rate_percent", VFloat (Prim2SF 0.496));
    ("RA_het_mismatches_rate_percent", VFloat (Prim2SF 100.0));
    ("AA_hom_mismatches_rate_percent", VFloat (Prim2SF 0.0));
    ("non_reference_discordanc_rate_percent", VFloat (Prim2SF 100.0));
    ("best_gt_rsquared", VFloat (Prim2SF 0.000008));
    ("imputed_ds_rsquared", VFloat (Prim2SF 0.000008)) ].

(** A data line whose bin identifier is not a number. *)
Definition bad_bin_line : string :=
  "GCsS x NA12878 851 3 0 0 602 0 0 3 1 0 0.496 100.000 0.000 100.000 0.000008 0.000008".

(** The example line with other counts, for the same sample. *)
Definition second_line : string :=
  "GCsI 1 NA12878 0 0 0 0 0 0 0 0 0 0 0.000 0.000 0.000 0.000 0.000000 0.000000".

Definition second_record : record :=
  [ ("variants", VStr "GCsI");
    ("bins", VInt 1);
    ("val_gt_RR", VInt 0);
    ("val_gt_RA", VInt 0);
    ("val_gt_AA", VInt 0);
    ("filtered_gp", VInt 0);
    ("RR_hom_matches", VInt 0);
    ("RA_het_matches", VInt 0);
    ("AA_hom_matches", VInt 0);
    ("RR_hom_mismatches", VInt 0);
    ("RA_het_mismatches", VInt 0);
    ("AA_hom_mismatches", VInt 0);
    ("RR_hom_mismatches_rate_percent", VFloat (S754_zero false));
    ("RA_het_mismatches_rate_percent", VFloat (S754_zero false));
    ("AA_hom_mismatches_rate_percent", VFloat (S754_zero false));
    ("non_reference_discordanc_rate_percent", VFloat (S754_zero false));
    ("best_gt_rsquared", VFloat (S754_zero false));
    ("imputed_ds_rsquared", VFloat (S754_zero false)) ].

(** The Record of the specification's example, and the same Record under a
    label that starts with the comment marker. *)
Definition example_Rec : Rec.t :=
  Rec.mk "GCsS" 0 851 3 0 0 602 0 0 3 1 0
         (Prim2SF 0.496) (Prim2SF 100.0) (Prim2SF 0.0) (Prim2SF 100.0)
         (Prim2SF 0.000008) (Prim2SF 0.000008).

Definition hash_Rec : Rec.t :=
  Rec.mk "#GCsS" 0 851 3 0 0 602 0 0 3 1 0
         (Prim2SF 0.496) (Prim2SF 100.0) (Prim2SF 0.0) (Prim2SF 100.0)
         (Prim2SF 0.000008) (Prim2SF 0.000008).

(** ** Constants of the rendering functions *)

(** The keywords of the [dict(...)] call of lines 240-259, in order. *)
Definition RECORD_KEYS : list string :=
  [ "variants"; "bins"; "val_gt_RR"; "val_gt_RA"; "val_gt_AA"; "filtered_gp";
    "RR_hom_matches"; "RA_het_matches"; "AA_hom_matches"; "RR_hom_mismatches";
    "RA_het_mismatches"; "AA_hom_mismatches";
    "RR_hom_mismatches_rate_percent"; "RA_het_mismatches_rate_percent";
    "AA_hom_mismatches_rate_percent"; "non_reference_discordanc_rate_percent";
    "best_gt_rsquared"; "imputed_ds_rsquared" ].

(** The keys of the [headers] of [summary_table], lines 51-166, in order. *)
Definition SUMMARY_HEADERS : list string :=
  [ "variants"; "bins"; "val_gt_RR"; "val_gt_RA"; "val_gt_AA"; "filtered_gp";
    "RR_hom_matches"; "RA_het_matches"; "AA_hom_matches"; "RR_hom_mismatches";
    "RA_het_mismatches"; "AA_hom_mismatches";
    "RR_hom_mismatches_rate_percent"; "RA_het_mismatches_rate_percent";
    "AA_hom_mimatches"; "non_reference_discordanc_rate_percent";
    "best_gt_rsquared"; "imputed_ds_rsquared" ].

(** [record[key]] as a lookup: the value of the first item under [key]. *)
Fixpoint record_get (key : string) (r : record) : option value :=
  match r with
  | [] => None
  | (k, v) :: r' => if String.eqb k key then Some v else record_get key r'
  end.

(** The sample name of a line, when the line is an accepted data line. *)
Definition key_of (line : string) : option string := fst <$> accepted line.

(** What a file does to [data_by_sample] when its parse returns [metrics]
    (lines 23-27 of [err_spl.py]). *)
Definition file_effect (data_by_sample : gmap string (gmap string record))
    (s_name : string) (metrics : gmap string record)
    : gmap string (gmap string record) :=
  if (0 <? size metrics)%nat then <[s_name := metrics]> data_by_sample
  else data_by_sample.

(** A data line for another sample. *)
Definition other_sample_line : string :=
  "GCsS 0 HG002 1 2 3 4 5 6 7 8 9 10 0.5 1.5 2.5 3.5 0.25 0.75".

(** The mapping parsed from a file, empty when the parse raises. *)
Definition metrics_of (f : LogFile) : gmap string record :=
  match outcome (parse_err_spl_report f) with
  | Ok m => m
  | Raise _ => ∅
  end.

(** What a file whose parse returns does to [data_by_sample]. *)
Definition file_step (data_by_sample : gmap string (gmap string record))
    (f : LogFile) : gmap string (gmap string record) :=
  file_effect data_by_sample (f_s_name f) (metrics_of f).

(** What the loop logs about the name of a file with data: the debug
    message of line 25 when the name is already a key. *)
Definition duplicate_log (data_by_sample : gmap string (gmap string record))
    (s_name : string) (metrics : gmap string record) : list log_record :=
  if (0 <? size metrics)%nat && is_some (data_by_sample !! s_name)
  then [LogRecord DEBUG (duplicate_message s_name)]
  else [].

(** [sep.join(tokens)] for a separator of any length. *)
Fixpoint join_with (sep : string) (tokens : list string) : string :=
  match tokens with
  | [] => EmptyString
  | [t] => t
  | t :: ts => t +:+ sep +:+ join_with sep ts
  end.

(** The two-character line ending CR LF. *)
Definition CRLF : string := String "013" (String "010" EmptyString).

(** * Properties *)

Arguments Py.int : simpl never.
Arguments Py.float : simpl never.

(** ** Sanity checks of the built-ins on literal inputs *)

Example splitlines_examples :
  Py.splitlines "" = [] ∧
  Py.splitlines LF = [""] ∧
  Py.splitlines ("a" +:+ LF) = ["a"] ∧
  Py.splitlines ("a" +:+ LF +:+ LF +:+ "b") = ["a"; ""; "b"] ∧
  Py.splitlines ("a" +:+ String "013" LF +:+ "b" +:+ String "013" "c")
    = ["a"; "b"; "c"].
Proof. repeat split; reflexivity. Qed.

Example strip_split_examples :
  Py.strip (String "009" " a b " +:+ String "160" "") = "a b" ∧
  Py.split " " "" = [""] ∧
  Py.split " " " " = [""; ""] ∧
  Py.split " " "a  b" = ["a"; ""; "b"] ∧
  Py.join " " ["a"; ""; "b"] = "a  b".
Proof. repeat split; reflexivity. Qed.

Example int_examples :
  Py.int "851" = Some 851%Z ∧
  Py.int " -12 " = Some (-12)%Z ∧
  Py.int "+1_000" = Some 1000%Z ∧
  Py.int "007" = Some 7%Z ∧
  Py.int "1__0" = None ∧
  Py.int "0.5" = None ∧
  Py.int (String "031" "12") = None ∧
  Py.int "" = None.
Proof. repeat split; reflexivity. Qed.

Example float_examples :
  Py.float "0.496" = Some (Prim2SF 0.496) ∧
  Py.float "100.000" = Some (Prim2SF 100) ∧
  Py.float "0.000008" = Some (Prim2SF 0.000008) ∧
  Py.float " 1e3 " = Some (Prim2SF 1000) ∧
  Py.float "-.5" = Some (Prim2SF (-0.5)) ∧
  Py.float "9007199254740993" = Some (Prim2SF 9007199254740992) ∧
  Py.float "2.5e-324" = Some (Prim2SF 5e-324) ∧
  Py.float "1e400" = Some (S754_infinity false) ∧
  Py.float "-Infinity" = Some (S754_infinity true) ∧
  Py.float "NaN" = Some S754_nan ∧
  Py.float "1e" = None ∧
  Py.float "." = None ∧
  Py.float "abc" = None.
Proof. repeat split; vm_compute; reflexivity. Qed.

(** ** The monad *)

Lemma bind_ok {A B : Type} (a : A) (k : A → M B) :
  (mret a ≫= k) = k a.
Proof. unfold mbind, M_bind, mret, M_ret. destruct (k a); reflexivity. Qed.

Lemma bind_log_ok {A B : Type} (l : list log_record) (a : A) (k : A → M B) :
  ((l, Ok a) ≫= k) = ((l ++ logged (k a))%list, outcome (k a)).
Proof. unfold mbind, M_bind, logged, outcome. destruct (k a); reflexivity. Qed.

Lemma M_eta {A : Type} (m : M A) : m = (logged m, outcome m).
Proof. destruct m; reflexivity. Qed.

(** ** The tuple assignment and the coercions, [parse_fields] *)

(** Case analysis on the length of a list of tokens: shorter than [n] (one
    goal per length), exactly [n], longer. *)
Ltac split_tokens n l :=
  lazymatch n with
  | O => destruct l as [|? ?]
  | S ?k =>
      let t := fresh "tok" in
      let l' := fresh "toks" in
      destruct l as [|t l']; [ | split_tokens k l' ]
  end.

Ltac nineteen l := split_tokens 19%nat l.

Lemma to_int_bind {B : Type} (tok : string) (k : Z → M B) :
  (to_int tok ≫= k)
  = match Py.int tok with Some n => k n | None => ([], Raise ValueError) end.
Proof. unfold to_int. destruct (Py.int tok); [apply bind_ok | reflexivity]. Qed.

Lemma to_float_bind {B : Type} (tok : string) (k : spec_float → M B) :
  (to_float tok ≫= k)
  = match Py.float tok with Some x => k x | None => ([], Raise ValueError) end.
Proof. unfold to_float. destruct (Py.float tok); [apply bind_ok | reflexivity]. Qed.

(** Decides the next coercion of [parse_fields]: the goal for a token that
    coerces comes first. *)
Ltac coerce_step :=
  first [rewrite to_int_bind | rewrite to_float_bind];
  match goal with
  | |- context [match ?o with Some _ => _ | None => _ end] => destruct o eqn:?
  end.

Lemma parse_fields_length fields :
  length fields ≠ 19%nat → parse_fields fields = ([], Raise ValueError).
Proof.
  intros H. nineteen fields; try reflexivity. simpl in H; lia.
Qed.

Lemma parse_fields_logged fields : logged (parse_fields fields) = [].
Proof.
  destruct (decide (length fields = 19%nat)) as [H|H];
    [|by rewrite parse_fields_length].
  nineteen fields; try discriminate H.
  unfold parse_fields. repeat (coerce_step; [|reflexivity]).
  reflexivity.
Qed.

Lemma parse_fields_raises fields e :
  outcome (parse_fields fields) = Raise e → e = ValueError.
Proof.
  destruct (decide (length fields = 19%nat)) as [H|H];
    [|rewrite parse_fields_length by done; by intros [= <-]].
  nineteen fields; try discriminate H.
  unfold parse_fields. repeat (coerce_step; [|by intros [= <-]]).
  discriminate.
Qed.

Lemma parse_fields_coerce fields :
  length fields = 19%nat →
  is_some_result (outcome (parse_fields fields)) = all_coerce SLOTS fields.
Proof.
  intros H. nineteen fields; try discriminate H.
  unfold parse_fields, SLOTS, all_coerce, coerces.
  repeat (coerce_step; [|simpl; rewrite ?andb_false_r; reflexivity]).
  reflexivity.
Qed.

(** ** Stripping and splitting *)

Lemma lstrip_by_head p s c r : Py.lstrip_by p s = String c r → p c = false.
Proof.
  induction s as [|a s IH]; simpl; [discriminate|].
  destruct (p a) eqn:Ha; [exact IH|]. by intros [= <- _].
Qed.

Lemma rstrip_by_head p c r :
  p c = false → ∃ r', Py.rstrip_by p (String c r) = String c r'.
Proof.
  intros Hc. simpl. rewrite Hc. destruct (Py.rstrip_by p r); eauto.
Qed.

Lemma split_head sep c r :
  Ascii.eqb c sep = false → ∃ t ts, Py.split sep (String c r) = String c t :: ts.
Proof.
  intros Hc. simpl. rewrite Hc. destruct (Py.split sep r); eauto.
Qed.

Lemma isspace_not_space c : Py.isspace c = false → Ascii.eqb c " " = false.
Proof.
  intros Hc. destruct (Ascii.eqb_spec c " ") as [->|]; [discriminate Hc | done].
Qed.

(** The tokens of a blank line: one empty token. *)
Lemma fields_of_blank line : is_blank line = true → fields_of line = [""].
Proof.
  unfold is_blank, fields_of. intros H%String.eqb_eq. by rewrite H.
Qed.

(** A line that is not blank starts, once stripped, with a character that is
    not whitespace, and so does its first token. *)
Lemma fields_of_nonblank line :
  is_blank line = false →
  ∃ c t ts, fields_of line = String c t :: ts ∧ Py.isspace c = false.
Proof.
  unfold is_blank, fields_of, Py.strip, Py.strip_by. intros H.
  destruct (Py.lstrip_by Py.isspace line) as [|c r] eqn:Hl.
  { discriminate H. }
  pose proof (lstrip_by_head _ _ _ _ Hl) as Hc.
  destruct (rstrip_by_head Py.isspace c r Hc) as [r' ->].
  destruct (split_head " " c r' (isspace_not_space c Hc)) as (t & ts & ->).
  eauto.
Qed.

(** ** The loop body, [parse_line] *)

Lemma parse_line_blank parsed_data line :
  is_blank line = true → parse_line parsed_data line = ([], Raise IndexError).
Proof.
  intros H. unfold parse_line. fold (fields_of line).
  by rewrite (fields_of_blank _ H).
Qed.

Lemma parse_line_comment parsed_data line :
  is_comment line = true → parse_line parsed_data line = ([], Ok parsed_data).
Proof.
  unfold is_comment, parse_line. fold (fields_of line).
  destruct (fields_of line) as [|[|c t] ts]; try discriminate.
  by intros ->.
Qed.

(** The body on a line that is neither blank nor a comment. *)
Lemma parse_line_data parsed_data line :
  is_blank line = false → is_comment line = false →
  parse_line parsed_data line
  = ((if negb (Nat.eqb (length (fields_of line)) (length EXPECTED_COLUMNS))
      then warning (skipping_message (fields_of line) line) else mret tt) ;;
     '(sample_name, r) ← parse_fields (fields_of line);
     mret (<[sample_name := r]> parsed_data)).
Proof.
  intros Hb Hc. destruct (fields_of_nonblank _ Hb) as (c & t & ts & Hf & _).
  unfold is_comment in Hc. unfold parse_line. fold (fields_of line).
  rewrite Hf in Hc |- *. by rewrite Hc.
Qed.

Lemma accepted_not_blank line kr : accepted line = Some kr → is_blank line = false.
Proof. unfold accepted. by destruct (is_blank line). Qed.

Lemma accepted_not_comment line kr :
  accepted line = Some kr → is_comment line = false.
Proof.
  unfold accepted. destruct (is_comment line); [|done].
  by rewrite orb_true_r.
Qed.

Lemma accepted_fields line kr :
  accepted line = Some kr → parse_fields (fields_of line) = ([], Ok kr).
Proof.
  intros H. rewrite (M_eta (parse_fields _)), parse_fields_logged.
  unfold accepted in H.
  destruct (is_blank line || is_comment line); [discriminate|].
  destruct (outcome (parse_fields (fields_of line))); by inversion H.
Qed.

Lemma accepted_length line kr :
  accepted line = Some kr → length (fields_of line) = 19%nat.
Proof.
  intros H%accepted_fields.
  destruct (decide (length (fields_of line) = 19%nat)) as [|Hn]; [done|].
  by rewrite parse_fields_length in H.
Qed.

(** An accepted line stores its record under its key, without a message. *)
Lemma parse_line_accepted parsed_data line k r :
  accepted line = Some (k, r) →
  parse_line parsed_data line = ([], Ok (<[k := r]> parsed_data)).
Proof.
  intros H.
  rewrite parse_line_data
    by eauto using accepted_not_blank, accepted_not_comment.
  rewrite (accepted_length _ _ H), (accepted_fields _ _ H). reflexivity.
Qed.

(** A line of nineteen tokens with a numeric token that does not coerce
    raises [ValueError], without a message. *)
Lemma parse_line_bad_number parsed_data line :
  bad_number line = true →
  parse_line parsed_data line = ([], Raise ValueError).
Proof.
  unfold bad_number.
  intros [[[Hb%negb_true_iff Hc%negb_true_iff]%andb_true_iff
          Hn%Nat.eqb_eq]%andb_true_iff Ha%negb_true_iff]%andb_true_iff.
  rewrite parse_line_data by done. rewrite Hn. simpl negb. cbv iota.
  rewrite bind_ok.
  pose proof (parse_fields_coerce _ Hn) as Hco. rewrite Ha in Hco.
  pose proof (parse_fields_logged (fields_of line)) as Hl.
  pose proof (parse_fields_raises (fields_of line)) as Hr.
  destruct (parse_fields (fields_of line)) as [l [kr|e]]; simpl in *;
    [discriminate|].
  subst l. by rewrite (Hr e eq_refl).
Qed.

(** A line with a number of tokens other than nineteen is announced as
    skipped, and then the tuple assignment raises [ValueError]. *)
Lemma parse_line_wrong_count parsed_data line :
  is_blank line = false → is_comment line = false →
  length (fields_of line) ≠ 19%nat →
  parse_line parsed_data line
  = ([LogRecord WARNING (skipping_message (fields_of line) line)],
     Raise ValueError).
Proof.
  intros Hb Hc Hn. rewrite parse_line_data by done.
  rewrite parse_fields_length by done.
  apply Nat.eqb_neq in Hn. simpl length at 2. rewrite Hn. reflexivity.
Qed.

Lemma tolerated_cases line :
  tolerated line = true →
  is_comment line = true ∧ accepted line = None
  ∨ ∃ kr, accepted line = Some kr.
Proof.
  unfold tolerated. destruct (is_comment line) eqn:Hc.
  - intros _. left. split; [done|]. unfold accepted. rewrite Hc.
    by rewrite orb_true_r.
  - simpl. destruct (accepted line); [eauto | discriminate].
Qed.

Lemma parse_line_tolerated parsed_data line :
  tolerated line = true →
  parse_line parsed_data line = ([], Ok (line_effect parsed_data line)).
Proof.
  unfold line_effect.
  intros [[Hc ->]|[[k r] H]]%tolerated_cases.
  - by apply parse_line_comment.
  - rewrite H. by apply parse_line_accepted.
Qed.

(** The body returns on tolerated lines only. *)
Lemma parse_line_ok parsed_data line l m :
  parse_line parsed_data line = (l, Ok m) → tolerated line = true.
Proof.
  intros H. unfold tolerated.
  destruct (is_comment line) eqn:Hc; [done|]. simpl.
  destruct (is_blank line) eqn:Hb.
  { by rewrite parse_line_blank in H. }
  rewrite parse_line_data in H by done.
  unfold accepted. rewrite Hb, Hc. simpl.
  destruct (parse_fields (fields_of line)) as [l' [kr|e]] eqn:Hp; [done|].
  exfalso. revert H. unfold outcome.
  destruct (negb _); simpl; discriminate.
Qed.

(** ** The loop, [parse_lines] *)

Lemma parse_lines_cons parsed_data line rest :
  parse_lines parsed_data (line :: rest)
  = (parse_line parsed_data line ≫= λ d, parse_lines d rest).
Proof. reflexivity. Qed.

(** On tolerated lines the loop returns the effects of the lines, applied
    from first to last, and logs nothing. *)
Lemma parse_lines_tolerated lines : ∀ parsed_data,
  Forall (λ l, tolerated l = true) lines →
  parse_lines parsed_data lines
  = ([], Ok (foldl line_effect parsed_data lines)).
Proof.
  induction lines as [|line rest IH]; intros d H; [reflexivity|].
  inversion H as [|? ? Hl Hr]; subst.
  rewrite parse_lines_cons, (parse_line_tolerated _ _ Hl), bind_log_ok.
  rewrite (IH _ Hr). reflexivity.
Qed.

(** The loop stops at the first line on which the body raises. *)
Lemma parse_lines_first_fault l1 : ∀ parsed_data bad l2 lg e,
  Forall (λ l, tolerated l = true) l1 →
  parse_line (foldl line_effect parsed_data l1) bad = (lg, Raise e) →
  parse_lines parsed_data (l1 ++ bad :: l2) = (lg, Raise e).
Proof.
  induction l1 as [|line rest IH]; intros d bad l2 lg e H Hbad.
  - simpl in *. rewrite Hbad. reflexivity.
  - inversion H as [|? ? Hl Hr]; subst.
    rewrite <- app_comm_cons, parse_lines_cons.
    rewrite (parse_line_tolerated _ _ Hl), bind_log_ok.
    rewrite (IH _ _ _ _ _ Hr Hbad). reflexivity.
Qed.

(** The loop returns on tolerated lines only. *)
Lemma parse_lines_ok lines : ∀ parsed_data l m,
  parse_lines parsed_data lines = (l, Ok m) →
  Forall (λ l, tolerated l = true) lines.
Proof.
  induction lines as [|line rest IH]; intros d l m H; [constructor|].
  rewrite parse_lines_cons in H.
  destruct (parse_line d line) as [l1 [d1|e]] eqn:H1; [|discriminate H].
  rewrite bind_log_ok in H. constructor.
  - eapply parse_line_ok, H1.
  - eapply (IH d1). rewrite (M_eta (parse_lines d1 rest)).
    f_equal. by inversion H.
Qed.

Lemma blank_not_tolerated line : is_blank line = true → tolerated line = false.
Proof.
  intros H. unfold tolerated, is_comment, accepted.
  by rewrite H, (fields_of_blank _ H).
Qed.

Lemma bad_number_not_tolerated line :
  bad_number line = true → tolerated line = false.
Proof.
  intros H. destruct (tolerated line) eqn:Ht; [|done].
  pose proof (parse_line_tolerated ∅ _ Ht) as H1.
  by rewrite (parse_line_bad_number _ _ H) in H1.
Qed.

(** ** The whole parse, [parse_err_spl_report] *)

Lemma parse_no_line f :
  Py.splitlines (f_f f) = [] → parse_err_spl_report f = ([], Raise IndexError).
Proof. unfold parse_err_spl_report. by intros ->. Qed.

Lemma parse_wrong_header f first rest :
  Py.splitlines (f_f f) = first :: rest → first ≠ expected_header →
  parse_err_spl_report f = ([LogRecord WARNING (header_message first)], Ok ∅).
Proof.
  unfold parse_err_spl_report. intros -> H.
  apply String.eqb_neq in H. by rewrite H.
Qed.

Lemma parse_header f rest :
  Py.splitlines (f_f f) = expected_header :: rest →
  parse_err_spl_report f = parse_lines ∅ rest.
Proof. unfold parse_err_spl_report. by intros ->. Qed.

Lemma splitlines_nil s : Py.splitlines s = [] → s = "".
Proof.
  destruct s as [|c s]; [done|]. simpl.
  destruct (Py.is_linebreak c).
  - destruct (Ascii.eqb c "013"); [destruct s as [|c' s']|]; try discriminate.
    destruct (Ascii.eqb c' "010"); discriminate.
  - destruct (Py.splitlines s); discriminate.
Qed.

(** ** The example of the specification *)

Lemma example_accepted : accepted example_line = Some ("NA12878", example_record).
Proof. vm_compute. reflexivity. Qed.

(** C5.  The header followed by the example data line parses, without any
    message, to the mapping with the single key [NA12878], whose record holds
    the eighteen values of the specification's example: the text [GCsS], the
    integers as written and the binary64 numbers that the decimal numerals
    denote. *)
Theorem example_parses (s_name : string) :
  parse_err_spl_report
    {| f_s_name := s_name;
       f_f := expected_header +:+ LF +:+ example_line |}
  = ([], Ok {[ "NA12878" := example_record ]}) ∧
  parse_err_spl_report
    {| f_s_name := s_name;
       f_f := expected_header +:+ LF +:+ example_line +:+ LF |}
  = ([], Ok {[ "NA12878" := example_record ]}).
Proof.
  assert (parse_lines ∅ [example_line]
          = ([], Ok {[ "NA12878" := example_record ]})) as Hp.
  { unfold parse_lines.
    rewrite (parse_line_accepted _ _ _ _ example_accepted).
    rewrite insert_empty. reflexivity. }
  split; (rewrite (parse_header _ [example_line]);
          [exact Hp | vm_compute; reflexivity]).
Qed.

(** C3 (the code departs from the claim).  A text with zero lines is the
    empty text, and on it [lines[0]] raises [IndexError]: nothing is logged
    and no mapping is returned. *)
Theorem no_line_raises (f : LogFile) :
  Py.splitlines (f_f f) = [] →
  f_f f = "" ∧ parse_err_spl_report f = ([], Raise IndexError).
Proof.
  intros H. split.
  - by apply splitlines_nil.
  - by apply parse_no_line.
Qed.

Lemma no_line_raises_witness :
  parse_err_spl_report {| f_s_name := "NA12878"; f_f := "" |}
  = ([], Raise IndexError).
Proof.
  apply (no_line_raises {| f_s_name := "NA12878"; f_f := "" |}). reflexivity.
Defined.

(** C4.  A text that is not empty and whose first line is not the expected
    header parses to the empty mapping, whatever follows; the one message
    logged is the warning about the header. *)
Theorem wrong_header_gives_empty_mapping (f : LogFile) :
  f_f f ≠ "" →
  head (Py.splitlines (f_f f)) ≠ Some expected_header →
  ∃ first,
    head (Py.splitlines (f_f f)) = Some first ∧
    parse_err_spl_report f
    = ([LogRecord WARNING (header_message first)], Ok ∅).
Proof.
  intros Hne Hh.
  destruct (Py.splitlines (f_f f)) as [|first rest] eqn:Hl.
  { by apply splitlines_nil in Hl. }
  exists first. split; [done|].
  apply (parse_wrong_header _ _ rest Hl). intros ->. by apply Hh.
Qed.

Lemma wrong_header_gives_empty_mapping_witness :
  ∃ first,
    head (Py.splitlines ("#Genotype concordance" +:+ LF +:+ example_line))
    = Some first ∧
    parse_err_spl_report
      {| f_s_name := "NA12878";
         f_f := "#Genotype concordance" +:+ LF +:+ example_line |}
    = ([LogRecord WARNING (header_message first)], Ok ∅).
Proof.
  apply (wrong_header_gives_empty_mapping
           {| f_s_name := "NA12878";
              f_f := "#Genotype concordance" +:+ LF +:+ example_line |}).
  - discriminate.
  - vm_compute. discriminate.
Defined.

(** ** Lines with a wrong number of tokens *)

(** After a valid header and tolerated lines, a line that is neither blank
    nor a comment and has a number of tokens other than nineteen is announced
    as skipped; then the tuple assignment raises [ValueError], and the lines
    that follow are not read. *)
Lemma wrong_count_raises f l1 bad l2 :
  Py.splitlines (f_f f) = expected_header :: l1 ++ bad :: l2 →
  Forall (λ l, tolerated l = true) l1 →
  is_blank bad = false → is_comment bad = false →
  length (fields_of bad) ≠ 19%nat →
  parse_err_spl_report f
  = ([LogRecord WARNING (skipping_message (fields_of bad) bad)],
     Raise ValueError).
Proof.
  intros Hl H1 Hb Hc Hn. rewrite (parse_header _ _ Hl).
  apply parse_lines_first_fault; [done|].
  by apply parse_line_wrong_count.
Qed.

(** C2 (the code departs from the claim).  A data line of three tokens after
    the header: the warning that the line is skipped is logged, but the line
    is not skipped; the call raises [ValueError] and the well-formed line
    that follows is never parsed. *)
Theorem short_line_raises (s_name : string) :
  parse_err_spl_report (report s_name ["GCsS 0 NA12878"; example_line])
  = ([LogRecord WARNING
        "Skipping line with 3 fields, expected 19: GCsS 0 NA12878"],
     Raise ValueError).
Proof.
  rewrite (wrong_count_raises _ [] "GCsS 0 NA12878" [example_line]);
    [reflexivity| vm_compute; reflexivity |constructor|reflexivity|reflexivity|].
  vm_compute. lia.
Qed.

(** ** What an accepted line stores *)

(** C6, amended.  For every accepted data line of nineteen tokens, the third
    token is the key, and the record stores the eighteen others in order:
    one as text, eleven coerced to integers (the bin identifier and ten
    counts) and six coerced to floating-point numbers. *)
Theorem accepted_record_kinds (line k : string) (r : record) :
  accepted line = Some (k, r) →
  length (fields_of line) = 19%nat ∧
  fields_of line !! 2%nat = Some k ∧
  Forall2 stores (delete 2%nat (fields_of line)) (r.*2) ∧
  count_kind KStr r = 1%nat ∧
  count_kind KInt r = 11%nat ∧
  count_kind KFloat r = 6%nat.
Proof.
  intros H. split; [by eapply accepted_length|].
  pose proof (accepted_length _ _ H) as Hn.
  apply accepted_fields in H. revert H Hn.
  generalize (fields_of line) as fields. intros fields H Hn.
  nineteen fields; try discriminate Hn. clear Hn. revert H.
  unfold parse_fields. repeat (coerce_step; [|discriminate]).
  intros [= <- <-].
  repeat split; try reflexivity.
  simpl. repeat constructor; assumption.
Qed.

Lemma accepted_record_kinds_witness :
  length (fields_of example_line) = 19%nat ∧
  fields_of example_line !! 2%nat = Some "NA12878" ∧
  Forall2 stores (delete 2%nat (fields_of example_line)) (example_record.*2) ∧
  count_kind KStr example_record = 1%nat ∧
  count_kind KInt example_record = 11%nat ∧
  count_kind KFloat example_record = 6%nat.
Proof.
  apply (accepted_record_kinds example_line "NA12878" example_record).
  vm_compute. reflexivity.
Defined.

(** C6 as stated fails: the record of the example line holds eleven integer
    fields, not ten. *)
Lemma ten_integer_fields_refuted :
  ¬ (∀ line k r, accepted line = Some (k, r) →
       count_kind KStr r = 1%nat ∧ count_kind KInt r = 10%nat
       ∧ count_kind KFloat r = 6%nat).
Proof.
  intros H. destruct (H _ _ _ example_accepted) as (_ & H10 & _).
  vm_compute in H10. discriminate H10.
Qed.

(** ** When the parse raises and when it does not *)

(** When the first line is not the header the parse returns the empty
    mapping; after the header, it returns (and logs nothing) when every line
    is a comment or an accepted data line; and a line of nineteen tokens with
    a numeric token that does not coerce raises [ValueError]. *)
Lemma parse_returns_on_tolerated_lines (f : LogFile) (first : string)
    (rest : list string) :
  Py.splitlines (f_f f) = first :: rest →
  (first ≠ expected_header →
     parse_err_spl_report f
     = ([LogRecord WARNING (header_message first)], Ok ∅)) ∧
  (first = expected_header →
     Forall (λ l, tolerated l = true) rest →
     parse_err_spl_report f = ([], Ok (foldl line_effect ∅ rest))) ∧
  (first = expected_header →
     ∀ l1 bad l2, rest = (l1 ++ bad :: l2)%list →
       Forall (λ l, tolerated l = true) l1 → bad_number bad = true →
       parse_err_spl_report f = ([], Raise ValueError)).
Proof.
  intros Hl. repeat split.
  - intros Hne. by eapply parse_wrong_header.
  - intros -> Hr. rewrite (parse_header _ _ Hl).
    by apply parse_lines_tolerated.
  - intros -> l1 bad l2 -> H1 Hbad. rewrite (parse_header _ _ Hl).
    apply parse_lines_first_fault; [done|]. by apply parse_line_bad_number.
Qed.

(** The body raises nothing but [IndexError] and [ValueError]. *)
Lemma parse_line_raises parsed_data line lg e :
  parse_line parsed_data line = (lg, Raise e) →
  e = IndexError ∨ e = ValueError.
Proof.
  intros H. destruct (is_blank line) eqn:Hb.
  { rewrite parse_line_blank in H by done. left. by inversion H. }
  destruct (is_comment line) eqn:Hc.
  { by rewrite parse_line_comment in H. }
  rewrite parse_line_data in H by done. right.
  pose proof (parse_fields_raises (fields_of line)) as Hr.
  destruct (parse_fields (fields_of line)) as [l' [[k r]|e']];
    simpl in Hr; revert H; destruct (negb _); simpl; try discriminate;
    intros [= _ <-]; by apply Hr.
Qed.

Lemma parse_lines_raises lines : ∀ parsed_data lg e,
  parse_lines parsed_data lines = (lg, Raise e) →
  e = IndexError ∨ e = ValueError.
Proof.
  induction lines as [|line rest IH]; intros d lg e H; [discriminate|].
  rewrite parse_lines_cons in H.
  destruct (parse_line d line) as [l1 [d1|e1]] eqn:H1.
  - rewrite bind_log_ok in H. eapply (IH d1).
    rewrite (M_eta (parse_lines d1 rest)). f_equal. by inversion H.
  - inversion H; subst. by eapply parse_line_raises.
Qed.

(** C1 (the code departs from the claim).  After the header, one line that
    is not tolerated (blank, with a number of tokens other than nineteen, or
    with a numeric token that does not coerce) is not dropped: the call
    raises [IndexError] or [ValueError] and returns no mapping. *)
Theorem malformed_line_raises (f : LogFile) (rest : list string) :
  Py.splitlines (f_f f) = expected_header :: rest →
  Exists (λ l, tolerated l = false) rest →
  ∃ lg e, parse_err_spl_report f = (lg, Raise e)
          ∧ (e = IndexError ∨ e = ValueError).
Proof.
  intros Hl Hex. rewrite (parse_header _ _ Hl).
  destruct (parse_lines ∅ rest) as [lg [m|e]] eqn:Hp.
  - exfalso. apply parse_lines_ok in Hp.
    apply Exists_exists in Hex as (b & Hin & Hb).
    rewrite Forall_forall in Hp. specialize (Hp b Hin). congruence.
  - exists lg, e. split; [done|]. by eapply parse_lines_raises.
Qed.

Lemma malformed_line_raises_witness :
  ∃ lg e,
    parse_err_spl_report
      (report "NA12878" [example_line; "GCsS 0 NA12878"; second_line])
    = (lg, Raise e) ∧ (e = IndexError ∨ e = ValueError).
Proof.
  apply (malformed_line_raises
           (report "NA12878" [example_line; "GCsS 0 NA12878"; second_line])
           [example_line; "GCsS 0 NA12878"; second_line]).
  - vm_compute; reflexivity.
  - apply Exists_cons_tl, Exists_cons_hd. vm_compute; reflexivity.
Defined.

(** ** Blank lines *)

(** C10, amended.  After the header, a blank line (empty or whitespace only)
    makes the call raise in every case.  The error is the [IndexError] of
    [fields[0][0]] on the blank line when all the lines before it are
    tolerated; otherwise an earlier line has raised first. *)
Theorem blank_line_raises (f : LogFile) (rest : list string) :
  Py.splitlines (f_f f) = expected_header :: rest →
  Exists (λ l, is_blank l = true) rest →
  (∃ lg e, parse_err_spl_report f = (lg, Raise e)) ∧
  (∀ l1 b l2, rest = (l1 ++ b :: l2)%list →
     Forall (λ l, tolerated l = true) l1 → is_blank b = true →
     parse_err_spl_report f = ([], Raise IndexError)).
Proof.
  intros Hl Hex. rewrite (parse_header _ _ Hl). split.
  - destruct (parse_lines ∅ rest) as [lg [m|e]] eqn:Hp; [|eauto].
    exfalso. apply parse_lines_ok in Hp.
    apply Exists_exists in Hex as (b & Hin & Hb).
    rewrite Forall_forall in Hp. specialize (Hp b Hin).
    by rewrite (blank_not_tolerated _ Hb) in Hp.
  - intros l1 b l2 -> H1 Hb.
    apply parse_lines_first_fault; [done|]. by apply parse_line_blank.
Qed.

Lemma blank_line_raises_witness :
  parse_err_spl_report (report "NA12878" [example_line; " "; example_line])
  = ([], Raise IndexError).
Proof.
  destruct (blank_line_raises
              (report "NA12878" [example_line; " "; example_line])
              [example_line; " "; example_line]) as [_ H].
  - vm_compute; reflexivity.
  - apply Exists_cons_tl, Exists_cons_hd. reflexivity.
  - apply (H [example_line] " " [example_line]);
      [reflexivity | repeat constructor | reflexivity].
Defined.

(** C10 as stated fails: when a line before the blank one raises, the error
    is that line's, here the [ValueError] of a token that is not a number. *)
Lemma blank_line_index_error_refuted :
  ¬ (∀ f rest,
       Py.splitlines (f_f f) = expected_header :: rest →
       Exists (λ l, is_blank l = true) rest →
       outcome (parse_err_spl_report f) = Raise IndexError).
Proof.
  intros H.
  assert (outcome (parse_err_spl_report
                     (report "NA12878" [bad_bin_line; ""; example_line]))
          = Raise ValueError) as Hv by (vm_compute; reflexivity).
  rewrite (H _ [bad_bin_line; ""; example_line]) in Hv.
  - discriminate Hv.
  - vm_compute; reflexivity.
  - apply Exists_cons_tl, Exists_cons_hd. reflexivity.
Qed.

(** ** Duplicate sample names *)

Lemma line_effect_same parsed_data line s r :
  accepted line = Some (s, r) → line_effect parsed_data line !! s = Some r.
Proof. unfold line_effect. intros ->. apply lookup_insert_eq. Qed.

Lemma line_effect_other parsed_data line s :
  (∀ r, accepted line ≠ Some (s, r)) →
  line_effect parsed_data line !! s = parsed_data !! s.
Proof.
  unfold line_effect. intros H.
  destruct (accepted line) as [[k r]|] eqn:Ha; [|done].
  apply lookup_insert_ne. intros ->. by apply (H r).
Qed.

Lemma foldl_line_effect_other lines : ∀ parsed_data s,
  Forall (λ l, ∀ r, accepted l ≠ Some (s, r)) lines →
  foldl line_effect parsed_data lines !! s = parsed_data !! s.
Proof.
  induction lines as [|line rest IH]; intros d s H; [done|].
  inversion H as [|? ? Hl Hr]; subst. simpl.
  rewrite (IH _ _ Hr). by apply line_effect_other.
Qed.

(** C8.  When two accepted data lines carry the same sample name and no
    line after the later one carries it again, every mapping that the parse
    returns holds, under that name, exactly the record of the later line;
    and the parse does return when the other lines are tolerated. *)
Theorem later_duplicate_replaces_earlier (f : LogFile)
    (l1 l2 l3 : list string) (a b s : string) (ra rb : record) :
  Py.splitlines (f_f f) = expected_header :: (l1 ++ a :: l2 ++ b :: l3)%list →
  accepted a = Some (s, ra) →
  accepted b = Some (s, rb) →
  Forall (λ l, ∀ r, accepted l ≠ Some (s, r)) l3 →
  (∀ lg m, parse_err_spl_report f = (lg, Ok m) → m !! s = Some rb) ∧
  (Forall (λ l, tolerated l = true) (l1 ++ l2 ++ l3)%list →
   ∃ m, parse_err_spl_report f = ([], Ok m)).
Proof.
  intros Hl Ha Hb H3. rewrite (parse_header _ _ Hl). split.
  - intros lg m Hp. pose proof (parse_lines_ok _ _ _ _ Hp) as Ht.
    rewrite (parse_lines_tolerated _ _ Ht) in Hp. inversion Hp; subst.
    rewrite foldl_app. simpl. rewrite foldl_app. simpl.
    rewrite (foldl_line_effect_other _ _ _ H3).
    by apply line_effect_same.
  - intros Ht. eexists. apply parse_lines_tolerated.
    apply Forall_app in Ht as [H1 [H2 H3']%Forall_app].
    apply Forall_app. split; [done|]. constructor.
    { unfold tolerated. by rewrite Ha, orb_true_r. }
    apply Forall_app. split; [done|]. constructor; [|done].
    unfold tolerated. by rewrite Hb, orb_true_r.
Qed.

Lemma later_duplicate_replaces_earlier_witness :
  (∀ lg m,
     parse_err_spl_report
       (report "NA12878"
          [example_line; "#Genotype concordance by sample (indels)"; second_line])
     = (lg, Ok m) →
     m !! "NA12878" = Some second_record) ∧
  (∃ m,
     parse_err_spl_report
       (report "NA12878"
          [example_line; "#Genotype concordance by sample (indels)"; second_line])
     = ([], Ok m)).
Proof.
  destruct (later_duplicate_replaces_earlier
              (report "NA12878"
                 [example_line; "#Genotype concordance by sample (indels)";
                  second_line])
              [] ["#Genotype concordance by sample (indels)"] []
              example_line second_line "NA12878"
              example_record second_record) as [H1 H2].
  - vm_compute; reflexivity.
  - exact example_accepted.
  - vm_compute; reflexivity.
  - constructor.
  - split; [exact H1|]. apply H2. repeat constructor.
Defined.

(** ** The module: counting the reports found *)

Section Counting.

Variable find_log_files : list LogFile.
Variable ignore_samples :
  gmap string (gmap string record) → gmap string (gmap string record).
Variable render : gmap string (gmap string record) → M unit.
Variable parse_glimpse_err_grp : M Z.

(** [parse_glimpse_err_spl] returns a count, which is never negative. *)
Lemma parse_glimpse_err_spl_count lg n :
  parse_glimpse_err_spl find_log_files ignore_samples render = (lg, Ok n) →
  (0 <= n)%Z.
Proof.
  unfold parse_glimpse_err_spl.
  destruct (collect_err_spl ∅ find_log_files) as [l [d|e]]; [|discriminate].
  rewrite bind_log_ok.
  destruct (Nat.eqb (size (ignore_samples d)) 0); [by intros [= _ <-]|].
  destruct (render (ignore_samples d)) as [l' [[]|e]]; [|discriminate].
  intros [= _ <-]. lia.
Qed.

(** The counter starts at one and only grows: when both parsers return,
    the module goes on to the general statistics, whatever they found. *)
Lemma module_counter_positive l1 n1 l2 n2 :
  parse_glimpse_err_spl find_log_files ignore_samples render = (l1, Ok n1) →
  parse_glimpse_err_grp = (l2, Ok n2) → (0 <= n2)%Z →
  MultiqcModule_init find_log_files ignore_samples render parse_glimpse_err_grp
  = ((l1 ++ l2)%list, Ok tt).
Proof.
  intros H1 H2 Hn. pose proof (parse_glimpse_err_spl_count _ _ H1) as Hn1.
  unfold MultiqcModule_init. rewrite H1, bind_log_ok, H2. simpl.
  destruct (1 + n1 + n2 =? 0)%Z eqn:Hz; [lia|].
  simpl. by rewrite app_nil_r.
Qed.

(** C7 (the code departs from the claim).  When both parsers return zero,
    [n_reports_found] is one, the test [n_reports_found == 0] fails and the
    module does not raise [ModuleNoSamplesFound]: it returns normally. *)
Theorem no_samples_found_not_raised (l1 l2 : list log_record) :
  parse_glimpse_err_spl find_log_files ignore_samples render = (l1, Ok 0%Z) →
  parse_glimpse_err_grp = (l2, Ok 0%Z) →
  MultiqcModule_init find_log_files ignore_samples render parse_glimpse_err_grp
  = ((l1 ++ l2)%list, Ok tt).
Proof. intros H1 H2. by apply (module_counter_positive l1 0%Z l2 0%Z). Qed.

End Counting.

(** With no log file at all, and with one file that does not start with the
    header, nothing is found and the module still returns. *)
Lemma no_samples_found_not_raised_witness :
  MultiqcModule_init [] id (λ _, mret tt) (mret 0%Z) = ([], Ok tt) ∧
  MultiqcModule_init [ {| f_s_name := "NA12878"; f_f := "no concordance here" |} ]
                     id (λ _, mret tt) (mret 0%Z)
  = ([LogRecord WARNING (header_message "no concordance here")], Ok tt).
Proof.
  split.
  - apply (no_samples_found_not_raised [] id (λ _, mret tt) (mret 0%Z) [] []);
      reflexivity.
  - apply (no_samples_found_not_raised
             [ {| f_s_name := "NA12878"; f_f := "no concordance here" |} ] id
             (λ _, mret tt) (mret 0%Z)
             [LogRecord WARNING (header_message "no concordance here")] []);
      vm_compute; reflexivity.
Defined.

(** ** Writing a record as a line and reading it back *)

(** *** Characters *)

Lemma digit_classes c :
  Py.isdigit c = true →
  Py.is_number_space c = false ∧ Py.isspace c = false ∧
  Py.is_linebreak c = false ∧ Ascii.eqb c "_" = false ∧
  Ascii.eqb c "-" = false ∧ Ascii.eqb c "+" = false ∧ Ascii.eqb c " " = false.
Proof.
  destruct c as [[] [] [] [] [] [] [] []]; vm_compute; intros H;
    first [discriminate H | repeat split].
Qed.

Lemma pretty_N_char_digit x :
  (x < 10)%N →
  Py.isdigit (pretty_N_char x) = true ∧ Py.digit_value (pretty_N_char x) = x.
Proof.
  intros Hx.
  assert (x = 0 ∨ x = 1 ∨ x = 2 ∨ x = 3 ∨ x = 4 ∨ x = 5 ∨ x = 6 ∨ x = 7
          ∨ x = 8 ∨ x = 9)%N as H by lia.
  repeat (destruct H as [->|H]; [by vm_compute|]). subst. by vm_compute.
Qed.

(** *** Predicates on all the characters of a text *)

Lemma all_chars_cons q c s : all_chars q (String c s) = q c && all_chars q s.
Proof. reflexivity. Qed.

Lemma all_chars_app q a b :
  all_chars q (a +:+ b) = all_chars q a && all_chars q b.
Proof.
  induction a as [|c a IH]; simpl; [done|]. by rewrite IH, andb_assoc.
Qed.

Lemma all_chars_impl (q q' : ascii → bool) s :
  (∀ c, q c = true → q' c = true) → all_chars q s = true → all_chars q' s = true.
Proof.
  intros H. induction s as [|c s IH]; simpl; [done|].
  intros [Hc Hs]%andb_true_iff. by rewrite (H _ Hc), IH.
Qed.

Lemma all_chars_join q sep ts :
  q sep = true → Forall (λ t, all_chars q t = true) ts →
  all_chars q (Py.join sep ts) = true.
Proof.
  intros Hsep. induction 1 as [|t ts Ht Hts IH]; [done|].
  destruct ts as [|t' ts']; [done|].
  change (Py.join sep (t :: t' :: ts'))
    with (t +:+ String sep (Py.join sep (t' :: ts'))).
  rewrite all_chars_app, Ht.
  change (all_chars q (String sep (Py.join sep (t' :: ts'))))
    with (q sep && all_chars q (Py.join sep (t' :: ts'))).
  by rewrite Hsep, IH.
Qed.

(** *** Stripping a text that has nothing to strip *)

Lemma rstrip_by_clean p s :
  all_chars (λ c, negb (p c)) s = true → Py.rstrip_by p s = s.
Proof.
  induction s as [|c s IH]; simpl; [done|].
  intros [Hc%negb_true_iff Hs]%andb_true_iff.
  rewrite (IH Hs), Hc. by destruct s.
Qed.

Lemma rstrip_by_cons p c s :
  s ≠ "" → Py.rstrip_by p s = s → Py.rstrip_by p (String c s) = String c s.
Proof. intros Hne Hs. simpl. rewrite Hs. by destruct s. Qed.

Lemma rstrip_by_app p a b :
  b ≠ "" → Py.rstrip_by p b = b → Py.rstrip_by p (a +:+ b) = a +:+ b.
Proof.
  intros Hne Hb. induction a as [|c a IH]; [done|].
  change (String c a +:+ b) with (String c (a +:+ b)).
  apply rstrip_by_cons; [|done]. by destruct a.
Qed.

(** A joined list of tokens whose last token is not empty and has no
    character of the class [p] ends with a character outside [p]. *)
Lemma rstrip_by_join p sep ts t :
  t ≠ "" → all_chars (λ c, negb (p c)) t = true →
  Py.rstrip_by p (Py.join sep (ts ++ [t])) = Py.join sep (ts ++ [t])
  ∧ Py.join sep (ts ++ [t]) ≠ "".
Proof.
  intros Hne Ht. induction ts as [|t0 ts [IH1 IH2]].
  - split; [by apply rstrip_by_clean | done].
  - assert (Py.join sep ((t0 :: ts) ++ [t])
            = t0 +:+ String sep (Py.join sep (ts ++ [t]))) as ->.
    { simpl. by destruct (ts ++ [t])%list eqn:E; [destruct ts|]. }
    split.
    + apply rstrip_by_app; [done|]. by apply rstrip_by_cons.
    + by destruct t0.
Qed.

Lemma lstrip_by_cons p c s : p c = false → Py.lstrip_by p (String c s) = String c s.
Proof. intros H. simpl. by rewrite H. Qed.

(** *** Splitting what was joined *)

Lemma split_token sep t :
  all_chars (λ c, negb (Ascii.eqb c sep)) t = true → Py.split sep t = [t].
Proof.
  induction t as [|c t IH]; simpl; [done|].
  intros [Hc%negb_true_iff Ht]%andb_true_iff. by rewrite Hc, (IH Ht).
Qed.

Lemma split_app sep t rest :
  all_chars (λ c, negb (Ascii.eqb c sep)) t = true →
  Py.split sep (t +:+ String sep rest) = t :: Py.split sep rest.
Proof.
  induction t as [|c t IH]; simpl.
  - intros _. by rewrite Ascii.eqb_refl.
  - intros [Hc%negb_true_iff Ht]%andb_true_iff. by rewrite Hc, (IH Ht).
Qed.

Lemma split_join sep ts :
  ts ≠ [] → Forall (λ t, all_chars (λ c, negb (Ascii.eqb c sep)) t = true) ts →
  Py.split sep (Py.join sep ts) = ts.
Proof.
  intros Hne H. induction H as [|t ts Ht Hts IH]; [done|].
  destruct ts as [|t' ts']; [by apply split_token|].
  change (Py.join sep (t :: t' :: ts'))
    with (t +:+ String sep (Py.join sep (t' :: ts'))).
  rewrite split_app by done. by rewrite IH.
Qed.

(** *** Lines of a text *)

Lemma splitlines_one_line s :
  s ≠ "" → all_chars (λ c, negb (Py.is_linebreak c)) s = true →
  Py.splitlines s = [s].
Proof.
  induction s as [|c s IH]; [done|]. intros _. simpl.
  intros [Hc%negb_true_iff Hs]%andb_true_iff. rewrite Hc.
  destruct s as [|c' s']; [done|]. by rewrite IH.
Qed.

Lemma splitlines_first_line a b :
  all_chars (λ c, negb (Py.is_linebreak c)) a = true →
  Py.splitlines (a +:+ String "010" b) = a :: Py.splitlines b.
Proof.
  induction a as [|c a IH]; simpl; [done|].
  intros [Hc%negb_true_iff Ha]%andb_true_iff. by rewrite Hc, (IH Ha).
Qed.

(** *** Integers: [int(str(n)) = n] *)

Lemma append_cons c a b : String c a +:+ b = String c (a +:+ b).
Proof. reflexivity. Qed.

Lemma append_assoc a b c : (a +:+ b) +:+ c = a +:+ (b +:+ c).
Proof.
  induction a as [|x a IH]; [done|]. by rewrite !append_cons, IH.
Qed.

Lemma append_empty a : a +:+ "" = a.
Proof. induction a as [|x a IH]; [done|]. by rewrite append_cons, IH. Qed.

Lemma digits_value_app acc a b :
  Py.digits_value acc (a +:+ b)
  = match Py.digits_value acc a with
    | Some n => Py.digits_value n b
    | None => None
    end.
Proof.
  revert acc. induction a as [|c a IH]; intros acc; simpl; [done|].
  destruct (Py.isdigit c); [apply IH | done].
Qed.

(** The decimal digits that [pretty] writes for a natural number. *)
Lemma pretty_N_go_digits x :
  ∃ ds,
    (∀ s, pretty_N_go x s = ds +:+ s) ∧
    all_chars Py.isdigit ds = true ∧
    (∀ acc, ∃ k, Py.digits_value acc ds = Some (acc * 10 ^ k + x)%N) ∧
    ((0 < x)%N → ds ≠ "").
Proof.
  induction (N.lt_wf_0 x) as [x _ IH].
  assert (x = 0 ∨ 0 < x)%N as [->|Hx] by lia.
  { exists "". split; [done|]. split; [done|]. split; [|lia].
    intros acc. exists 0%N. simpl. f_equal. lia. }
  destruct (IH (x `div` 10)%N) as (ds & Hgo & Hds & Hval & _).
  { by apply N.div_lt. }
  destruct (pretty_N_char_digit (x `mod` 10)%N) as [Hd Hv].
  { by apply N.mod_lt. }
  exists (ds +:+ String (pretty_N_char (x `mod` 10)) "").
  repeat split.
  - intros s. rewrite pretty_N_go_step, Hgo by done.
    by rewrite append_assoc.
  - rewrite all_chars_app, Hds. simpl. by rewrite Hd.
  - intros acc. destruct (Hval acc) as [k Hk]. exists (N.succ k).
    rewrite digits_value_app, Hk. simpl. rewrite Hd, Hv. f_equal.
    rewrite N.pow_succ_r'. pose proof (N.div_mod x 10). lia.
  - intros _. by destruct ds.
Qed.

Lemma drop_underscores_none s : ∀ prev,
  all_chars (λ c, negb (Ascii.eqb c "_")) s = true →
  Py.drop_underscores prev s = Some s.
Proof.
  induction s as [|c s IH]; intros prev; simpl; [done|].
  intros [Hc%negb_true_iff Hs]%andb_true_iff. by rewrite Hc, IH.
Qed.

(** [int] on a run of digits within the limit, bare or after a minus
    sign. *)
Lemma int_of_digits ds n :
  ds ≠ "" → all_chars Py.isdigit ds = true →
  (Z.of_nat (String.length ds) ≤ Py.MAX_STR_DIGITS)%Z →
  Py.digits_value 0 ds = Some n →
  Py.int ds = Some (Z.of_N n) ∧ Py.int (String "-" ds) = Some (- Z.of_N n)%Z.
Proof.
  intros Hne Hds Hlen Hn.
  assert (all_chars (λ c, negb (Py.is_number_space c)) ds = true) as Hns.
  { eapply all_chars_impl, Hds. intros c Hc.
    by destruct (digit_classes c Hc) as (-> & _). }
  assert (all_chars (λ c, negb (Ascii.eqb c "_")) ds = true) as Hu.
  { eapply all_chars_impl, Hds. intros c Hc.
    by destruct (digit_classes c Hc) as (_ & _ & _ & -> & _). }
  apply Z.ltb_ge in Hlen.
  destruct ds as [|c r]; [done|].
  pose proof Hds as [Hc _]%andb_true_iff.
  destruct (digit_classes c Hc) as (Hc1 & _ & _ & _ & Hc5 & Hc6 & _).
  unfold Py.int, Py.strip_by. split.
  - rewrite lstrip_by_cons, rstrip_by_clean, drop_underscores_none by done.
    unfold Py.take_sign. rewrite Hc5, Hc6. unfold Py.number.
    by rewrite Hn, Hlen.
  - rewrite lstrip_by_cons by done.
    rewrite rstrip_by_clean by (by rewrite all_chars_cons, Hns).
    rewrite drop_underscores_none by (by rewrite all_chars_cons, Hu).
    unfold Py.take_sign. simpl Ascii.eqb. cbv iota.
    unfold Py.number. by rewrite Hn, Hlen.
Qed.

Lemma int_text_positive p :
  ∃ ds, Py.int_text (Zpos p) = ds ∧ Py.int_text (Zneg p) = String "-" ds ∧
        ds ≠ "" ∧ all_chars Py.isdigit ds = true ∧
        Py.digits_value 0 ds = Some (Npos p).
Proof.
  destruct (pretty_N_go_digits (Npos p)) as (ds & Hgo & Hds & Hval & Hne).
  exists ds.
  assert (pretty (Npos p) = ds) as Hp.
  { unfold pretty, pretty_N. rewrite decide_False by done.
    by rewrite Hgo, append_empty. }
  split; [exact Hp|]. split.
  { change ("-" +:+ pretty (Npos p) = String "-" ds). by rewrite Hp. }
  split; [by apply Hne|]. split; [done|].
  destruct (Hval 0%N) as [k Hk]. rewrite Hk. reflexivity.
Qed.

(** Reading back the text of an integer that has no more digits than the
    limit. *)
Lemma int_str_int z :
  (Py.decimal_digits z ≤ Py.MAX_STR_DIGITS)%Z →
  Py.int (Py.int_text z) = Some z.
Proof.
  unfold Py.decimal_digits. destruct z as [|p|p]; [reflexivity| |];
    change (Z.abs _) with (Zpos p);
    destruct (int_text_positive p) as (ds & Hpos & Hneg & Hne & Hds & Hv);
    rewrite ?Hpos, ?Hneg; intros Hlen.
  - by destruct (int_of_digits ds _ Hne Hds Hlen Hv) as [-> _].
  - by destruct (int_of_digits ds _ Hne Hds Hlen Hv) as [_ ->].
Qed.

(** [str] writes the text of an integer within the limit, and raises on
    the others. *)
Lemma str_int_within z :
  (Py.decimal_digits z ≤ Py.MAX_STR_DIGITS)%Z →
  Py.str_int z = Some (Py.int_text z).
Proof. intros H%Z.ltb_ge. unfold Py.str_int. by rewrite H. Qed.

(** The text of an integer has no space and no line boundary. *)
Lemma int_text_token z : is_token (Py.int_text z) = true.
Proof.
  assert (∀ ds, all_chars Py.isdigit ds = true → is_token ds = true) as Hd.
  { intros ds. apply all_chars_impl. intros c Hc.
    by destruct (digit_classes c Hc) as (_ & _ & -> & _ & _ & _ & ->). }
  destruct z as [|p|p].
  - reflexivity.
  - destruct (int_text_positive p) as (ds & -> & _ & _ & Hds & _). by apply Hd.
  - destruct (int_text_positive p) as (ds & _ & -> & _ & Hds & _).
    unfold is_token. rewrite all_chars_cons. by apply Hd.
Qed.

(** *** Floats: a quotient that is a binary64 number *)

Section ExactQuotient.

Local Open Scope Z_scope.

Lemma digits2_pos_bounds p :
  2 ^ (Zpos (digits2_pos p) - 1) <= Zpos p < 2 ^ Zpos (digits2_pos p).
Proof.
  induction p as [p IH|p IH|]; simpl digits2_pos; [| |done].
  - rewrite Pos2Z.inj_succ. change (Zpos p~1) with (2 * Zpos p + 1).
    replace (Z.succ (Zpos (digits2_pos p)) - 1)
      with (Z.succ (Zpos (digits2_pos p) - 1)) by lia.
    rewrite !Z.pow_succ_r by lia.
    revert IH. generalize (2 ^ (Zpos (digits2_pos p) - 1)).
    generalize (2 ^ Zpos (digits2_pos p)). lia.
  - rewrite Pos2Z.inj_succ. change (Zpos p~0) with (2 * Zpos p).
    replace (Z.succ (Zpos (digits2_pos p)) - 1)
      with (Z.succ (Zpos (digits2_pos p) - 1)) by lia.
    rewrite !Z.pow_succ_r by lia.
    revert IH. generalize (2 ^ (Zpos (digits2_pos p) - 1)).
    generalize (2 ^ Zpos (digits2_pos p)). lia.
Qed.

Lemma pow2_lt_inv a b : 0 <= b -> 2 ^ a < 2 ^ b -> a < b.
Proof.
  intros Hb H. destruct (Z_lt_le_dec a b) as [|Hle]; [assumption|].
  pose proof (Z.pow_le_mono_r 2 b a ltac:(lia) Hle). lia.
Qed.

(** The number of binary digits of [m * 2 ^ t]. *)
Lemma digits2_shift (m : positive) (t : Z) (q : positive) :
  0 <= t -> Zpos q = Zpos m * 2 ^ t ->
  Zpos (digits2_pos q) = Zpos (digits2_pos m) + t.
Proof.
  intros Ht Hq.
  pose proof (digits2_pos_bounds q) as [Hq1 Hq2].
  pose proof (digits2_pos_bounds m) as [Hm1 Hm2].
  assert (2 ^ (Zpos (digits2_pos m) - 1 + t) <= Zpos q) as H1.
  { rewrite Z.pow_add_r by lia. rewrite Hq. apply Z.mul_le_mono_nonneg_r; lia. }
  assert (Zpos q < 2 ^ (Zpos (digits2_pos m) + t)) as H2.
  { rewrite Z.pow_add_r by lia. rewrite Hq. apply Z.mul_lt_mono_pos_r; lia. }
  assert (Zpos (digits2_pos m) - 1 + t < Zpos (digits2_pos q)).
  { apply pow2_lt_inv; lia. }
  assert (Zpos (digits2_pos q) - 1 < Zpos (digits2_pos m) + t).
  { apply pow2_lt_inv; lia. }
  lia.
Qed.

Lemma iter_pos_nat {A} (f : A -> A) p : forall x,
  SpecFloat.iter_pos f p x = Nat.iter (Pos.to_nat p) f x.
Proof.
  induction p as [p IH|p IH|]; intros x; simpl SpecFloat.iter_pos.
  - rewrite !IH, Pos2Nat.inj_xI.
    replace (S (2 * Pos.to_nat p))%nat
      with (Pos.to_nat p + (Pos.to_nat p + 1))%nat by lia.
    rewrite !Nat.iter_add. simpl. reflexivity.
  - rewrite !IH, Pos2Nat.inj_xO.
    replace (2 * Pos.to_nat p)%nat with (Pos.to_nat p + Pos.to_nat p)%nat by lia.
    rewrite Nat.iter_add. reflexivity.
  - reflexivity.
Qed.

(** Shifting out [n] zero bits of an exact record. *)
Lemma shr_1_exact n : forall q m : positive,
  Zpos q = Zpos m * 2 ^ Z.of_nat n ->
  Nat.iter n shr_1 {| shr_m := Zpos q; shr_r := false; shr_s := false |}
  = {| shr_m := Zpos m; shr_r := false; shr_s := false |}.
Proof.
  induction n as [|n IH]; intros q m Hq.
  - simpl in *. f_equal. lia.
  - rewrite Nat.iter_succ_r. rewrite Nat2Z.inj_succ, Z.pow_succ_r in Hq by lia.
    destruct q as [q|q|]; try lia.
    simpl. apply IH. lia.
Qed.

Lemma div_eucl_exact q b : 0 < b -> Z.div_eucl (q * b) b = (q, 0).
Proof.
  intros Hb. pose proof (Z.div_mul q b ltac:(lia)) as Hd.
  pose proof (Z.mod_mul q b ltac:(lia)) as Hm.
  unfold Z.div, Z.modulo in Hd, Hm.
  destruct (Z.div_eucl (q * b) b) as [x y]. simpl in *. congruence.
Qed.

Lemma new_location_zero n : new_location n 0 = loc_Exact.
Proof. unfold new_location. destruct (Z.even n); reflexivity. Qed.

(** Rounding a mantissa that ends in [t] zero bits to the exponent of the
    number it denotes. *)
Lemma binary_round_aux_exact (s : bool) (m q : positive) (e t : Z) :
  bounded prec emax m e = true -> 0 <= t ->
  Zpos q = Zpos m * 2 ^ t ->
  binary_round_aux prec emax s (Zpos q) (e - t) loc_Exact = S754_finite s m e.
Proof.
  intros [Hcan Hmax]%andb_prop Ht Hq.
  unfold canonical_mantissa in Hcan. apply Z.eqb_eq in Hcan.
  unfold binary_round_aux, shr_fexp.
  assert (Zdigits2 (Zpos q) + (e - t) = Zpos (digits2_pos m) + e) as ->.
  { simpl Zdigits2. rewrite (digits2_shift m t q) by assumption. lia. }
  rewrite Hcan. simpl shr_record_of_loc.
  assert (shr {| shr_m := Zpos q; shr_r := false; shr_s := false |} (e - t)
              (e - (e - t))
          = ({| shr_m := Zpos m; shr_r := false; shr_s := false |}, e)) as ->.
  { replace (e - (e - t)) with t by lia. unfold shr.
    destruct t as [|p|p]; [| |lia].
    - f_equal; [f_equal; lia | lia].
    - rewrite iter_pos_nat. f_equal; [|lia].
      apply shr_1_exact. rewrite positive_nat_Z. assumption. }
  simpl. rewrite Hcan, Z.sub_diag. simpl. rewrite Hmax. reflexivity.
Qed.

(** The quotient of two integers that is a binary64 number is that number. *)
Lemma SFdiv_exact (s : bool) (A B m : positive) (e : Z) :
  bounded prec emax m e = true ->
  Zpos A * 2 ^ Z.max (- e) 0 = Zpos m * 2 ^ Z.max e 0 * Zpos B ->
  SFdiv prec emax (S754_finite s A 0) (S754_finite false B 0)
  = S754_finite s m e.
Proof.
  intros Hb Heq. pose proof Hb as [Hcan _]%andb_prop.
  unfold canonical_mantissa in Hcan. apply Z.eqb_eq in Hcan.
  pose proof (digits2_pos_bounds A) as [HA1 HA2].
  pose proof (digits2_pos_bounds B) as [HB1 HB2].
  pose proof (digits2_pos_bounds m) as [Hm1 Hm2].
  set (dA := Zpos (digits2_pos A)) in *.
  set (dB := Zpos (digits2_pos B)) in *.
  set (dm := Zpos (digits2_pos m)) in *.
  assert (dA - dB <= dm + e) as Hd.
  { assert (dA - 1 + Z.max (- e) 0 < dm + Z.max e 0 + dB); [|lia].
    apply pow2_lt_inv; [lia|]. rewrite !Z.pow_add_r by lia.
    eapply Z.le_lt_trans with (Zpos A * 2 ^ Z.max (- e) 0).
    { apply Z.mul_le_mono_nonneg_r; [apply Z.pow_nonneg|]; lia. }
    rewrite Heq.
    assert (0 < 2 ^ Z.max e 0) by (apply Z.pow_pos_nonneg; lia).
    apply Z.mul_lt_mono_nonneg; [|apply Z.mul_lt_mono_pos_r|..]; lia. }
  set (ez := Z.min (fexp prec emax (dA - dB)) 0).
  assert (ez <= e /\ ez <= 0) as [He1 He2].
  { unfold ez, fexp in *. lia. }
  unfold SFdiv, SFdiv_core_binary.
  change (Zdigits2 (Zpos A)) with dA. change (Zdigits2 (Zpos B)) with dB.
  replace (dA + 0 - (dB + 0)) with (dA - dB) by lia.
  change (0 - 0) with 0. fold ez.
  set (t := e - ez).
  assert (exists q : positive, Zpos q = Zpos m * 2 ^ t) as [q Hq].
  { assert (0 < Zpos m * 2 ^ t).
    { apply Z.mul_pos_pos; [lia|]. apply Z.pow_pos_nonneg; lia. }
    exists (Z.to_pos (Zpos m * 2 ^ t)). rewrite Z2Pos.id; lia. }
  assert (match 0 - ez with
          | 0 => Zpos A
          | Zpos _ => Z.shiftl (Zpos A) (0 - ez)
          | Zneg _ => 0
          end = Zpos q * Zpos B) as ->.
  { assert (Zpos A * 2 ^ (0 - ez) = Zpos q * Zpos B) as Hs.
    { rewrite Hq. destruct (Z_lt_le_dec e 0) as [Hneg|Hpos].
      - rewrite Z.max_l, Z.max_r in Heq by lia. rewrite Z.pow_0_r in Heq.
        replace (0 - ez) with (- e + t) by (unfold t; lia).
        rewrite Z.pow_add_r by (unfold t; lia). nia.
      - rewrite Z.max_r, Z.max_l in Heq by lia. rewrite Z.pow_0_r in Heq.
        replace t with (e + (0 - ez)) by (unfold t; lia).
        rewrite Z.pow_add_r by lia. nia. }
    destruct (0 - ez) as [|p|p] eqn:E; [| |lia].
    - rewrite Z.pow_0_r in Hs. lia.
    - rewrite Z.shiftl_mul_pow2 by lia. assumption. }
  rewrite div_eucl_exact by lia. rewrite new_location_zero.
  replace ez with (e - t) by (unfold t; lia).
  destruct s; simpl xorb; apply binary_round_aux_exact; try assumption;
    unfold t; lia.
Qed.

End ExactQuotient.

(** *** Floats: reading back an exact decimal expansion *)

Lemma numeral_classes c :
  numeral_char c = true →
  Py.is_number_space c = false ∧ Py.isspace c = false ∧
  Ascii.eqb c "_" = false.
Proof.
  destruct c as [[] [] [] [] [] [] [] []]; vm_compute; intros H;
    first [discriminate H | repeat split].
Qed.

Lemma digit_lower c :
  Py.isdigit c = true →
  Ascii.eqb (Py.lower c) "i" = false ∧ Ascii.eqb (Py.lower c) "n" = false.
Proof.
  destruct c as [[] [] [] [] [] [] [] []]; vm_compute; intros H;
    first [discriminate H | repeat split].
Qed.

Lemma append_nil_l s : "" +:+ s = s.
Proof. reflexivity. Qed.

Lemma length_app a b :
  String.length (a +:+ b) = (String.length a + String.length b)%nat.
Proof.
  induction a as [|c a IH]; [done|]. rewrite append_cons. simpl. by rewrite IH.
Qed.

Lemma span_digits_all ds rest :
  all_chars Py.isdigit ds = true →
  match rest with String c _ => Py.isdigit c = false | EmptyString => True end →
  Py.span_digits (ds +:+ rest) = (ds, rest).
Proof.
  intros Hds Hrest. induction ds as [|c ds IH].
  - rewrite append_nil_l. destruct rest as [|c r]; [done|].
    simpl. by rewrite Hrest.
  - apply andb_true_iff in Hds as [Hc Hds]. rewrite append_cons. simpl.
    by rewrite Hc, (IH Hds).
Qed.

Lemma span_digits_only ds :
  all_chars Py.isdigit ds = true → Py.span_digits ds = (ds, "").
Proof.
  intros Hds. rewrite <- (append_empty ds) at 1. by apply span_digits_all.
Qed.

Lemma split_at_spec n : ∀ s a b,
  Py.split_at n s = (a, b) → (n ≤ String.length s)%nat →
  s = a +:+ b ∧ String.length a = n.
Proof.
  induction n as [|n IH]; intros s a b H Hn.
  - assert (Py.split_at 0 s = ("", s)) as Hz by (by destruct s).
    rewrite Hz in H. by injection H as <- <-.
  - destruct s as [|c s]; [simpl in Hn; lia|]. simpl in H, Hn.
    destruct (Py.split_at n s) as [a' b'] eqn:E. injection H as <- <-.
    destruct (IH s a' b' E) as [-> Hlen]; [lia|].
    rewrite append_cons. split; [done | simpl; by rewrite Hlen].
Qed.

Lemma zeros_digits j : all_chars Py.isdigit (Py.zeros j) = true.
Proof. induction j as [|j IH]; [done|]. simpl. exact IH. Qed.

Lemma zeros_length j : String.length (Py.zeros j) = j.
Proof. induction j as [|j IH]; [done|]. simpl. by rewrite IH. Qed.

Lemma digits_value_zeros j ds :
  Py.digits_value 0 (Py.zeros j +:+ ds) = Py.digits_value 0 ds.
Proof.
  induction j as [|j IH]; [done|].
  change (Py.zeros (S j) +:+ ds) with (String "0" (Py.zeros j +:+ ds)).
  exact IH.
Qed.

(** Reading a run of digits with the point [k] places from the right. *)
Lemma decimal_place_point ds k n :
  ds ≠ "" → all_chars Py.isdigit ds = true →
  Py.digits_value 0 ds = Some n →
  ∃ c body,
    Py.place_point ds k = String c body ∧
    Py.isdigit c = true ∧
    all_chars numeral_char (String c body) = true ∧
    Py.decimal (String c body) = Some (n, (- Z.of_nat k)%Z).
Proof.
  intros Hne Hds Hn.
  assert (∀ t, all_chars Py.isdigit t = true →
               all_chars numeral_char t = true) as Hnum.
  { intros t. apply all_chars_impl. intros c Hc. unfold numeral_char.
    by rewrite Hc. }
  destruct k as [|k].
  - destruct ds as [|c ds]; [done|]. exists c, ds.
    pose proof Hds as [Hc _]%andb_true_iff.
    split; [done|]. split; [done|]. split; [by apply Hnum|].
    unfold Py.decimal. rewrite span_digits_only by done.
    rewrite append_empty. unfold Py.number. by rewrite Hn.
  - unfold Py.place_point.
    destruct (S k <? String.length ds)%nat eqn:Hk.
    + apply Nat.ltb_lt in Hk.
      destruct (Py.split_at (String.length ds - S k) ds) as [ip fp] eqn:E.
      destruct (split_at_spec _ _ _ _ E) as [Heq Hlen]; [lia|].
      assert (all_chars Py.isdigit ip = true
              ∧ all_chars Py.isdigit fp = true) as [Hip Hfp].
      { rewrite Heq, all_chars_app in Hds. by apply andb_true_iff. }
      assert (String.length fp = S k) as Hfl.
      { pose proof (length_app ip fp) as Hl. rewrite <- Heq in Hl. lia. }
      destruct ip as [|c ip]; [simpl in Hlen; lia|].
      exists c, (ip +:+ String "." fp).
      pose proof Hip as [Hc _]%andb_true_iff.
      split; [done|]. split; [done|]. split.
      { rewrite <- append_cons, all_chars_app, (Hnum _ Hip). simpl.
        by apply Hnum. }
      unfold Py.decimal. rewrite <- append_cons.
      rewrite span_digits_all by done.
      simpl Ascii.eqb. cbv iota. rewrite ?Ascii.eqb_refl.
      rewrite span_digits_only by done.
      rewrite <- Heq. unfold Py.number.
      destruct ds as [|c' ds']; [done|]. rewrite Hn, Hfl. reflexivity.
    + apply Nat.ltb_ge in Hk.
      exists "0"%char, (String "." (Py.zeros (S k - String.length ds) +:+ ds)).
      set (fp := Py.zeros (S k - String.length ds) +:+ ds).
      assert (all_chars Py.isdigit fp = true) as Hfp.
      { unfold fp. by rewrite all_chars_app, zeros_digits. }
      assert (String.length fp = S k) as Hfl.
      { unfold fp. rewrite length_app, zeros_length. lia. }
      split; [done|]. split; [done|]. split.
      { change (all_chars numeral_char fp = true). by apply Hnum. }
      unfold Py.decimal.
      change (Py.span_digits (String "0" (String "." fp)))
        with ("0", String "." fp).
      simpl Ascii.eqb. cbv iota. rewrite ?Ascii.eqb_refl.
      rewrite span_digits_only by done.
      change (Py.number ("0" +:+ fp)) with (Py.digits_value 0 fp).
      unfold fp at 1. rewrite digits_value_zeros, Hn, Hfl. reflexivity.
Qed.

(** [float] on a numeral that starts with a digit, bare or after a minus
    sign. *)
Lemma float_of_numeral neg c body m e :
  Py.isdigit c = true →
  all_chars numeral_char (String c body) = true →
  Py.decimal (String c body) = Some (m, e) →
  Py.float (Py.sign_text neg +:+ String c body)
  = Some (Py.round_decimal neg m e).
Proof.
  intros Hc Hnum Hdec.
  assert (all_chars (λ c, negb (Py.is_number_space c)) (String c body) = true)
    as Hns.
  { eapply all_chars_impl, Hnum. intros a Ha.
    by destruct (numeral_classes a Ha) as (-> & _). }
  assert (all_chars (λ c, negb (Ascii.eqb c "_")) (String c body) = true)
    as Hu.
  { eapply all_chars_impl, Hnum. intros a Ha.
    by destruct (numeral_classes a Ha) as (_ & _ & ->). }
  destruct (digit_classes c Hc) as (Hc1 & _ & _ & _ & Hc5 & Hc6 & _).
  destruct (digit_lower c Hc) as [Hi Hn].
  assert (Py.float (String c body) = Some (Py.round_decimal false m e)
          ∧ ∀ t, Py.take_sign t = (neg, String c body) →
                 Py.drop_underscores false t = Some t →
                 Py.strip_by Py.is_number_space t = t →
                 Py.float t = Some (Py.round_decimal neg m e)) as [Hpos Hany].
  { assert (∀ sg t, Py.take_sign t = (sg, String c body) →
                 Py.drop_underscores false t = Some t →
                 Py.strip_by Py.is_number_space t = t →
                 Py.float t = Some (Py.round_decimal sg m e)) as H.
    { intros sg t Hsign Hdrop Hstrip. unfold Py.float.
      rewrite Hdrop, Hstrip, Hsign. simpl Py.lowercase. simpl String.eqb.
      rewrite Hi, Hn. simpl. by rewrite Hdec. }
    split; [|apply H]. apply H.
    - unfold Py.take_sign. by rewrite Hc5, Hc6.
    - by apply drop_underscores_none.
    - unfold Py.strip_by. by rewrite lstrip_by_cons, rstrip_by_clean. }
  destruct neg; [|exact Hpos].
  change (Py.sign_text true +:+ String c body)
    with (String "-" (String c body)).
  apply Hany.
  - reflexivity.
  - apply drop_underscores_none. by rewrite all_chars_cons, Hu.
  - unfold Py.strip_by. rewrite lstrip_by_cons by done.
    apply rstrip_by_clean. by rewrite all_chars_cons, Hns.
Qed.

Lemma reduce_spec k : ∀ m m' k',
  Py.reduce m k = (m', k') →
  (k' ≤ k)%nat ∧
  (Zpos m * 2 ^ Z.of_nat k' = Zpos m' * 2 ^ Z.of_nat k)%Z.
Proof.
  induction k as [|k IH]; intros m m' k' H.
  - assert (Py.reduce m 0 = (m, 0%nat)) as Hz by (by destruct m).
    rewrite Hz in H. by injection H as <- <-.
  - destruct m as [m|m|]; simpl in H.
    + by injection H as <- <-.
    + destruct (IH _ _ _ H) as [Hle Heq]. split; [lia|].
      rewrite Nat2Z.inj_succ, Z.pow_succ_r by lia.
      change (Zpos m~0) with (2 * Zpos m)%Z.
      revert Heq. generalize (2 ^ Z.of_nat k')%Z (2 ^ Z.of_nat k)%Z. lia.
    + by injection H as <- <-.
Qed.

(** The correctly rounded value of a decimal numeral that denotes a binary64
    number is that number. *)
Lemma round_decimal_exact neg (n : positive) (k : nat) m e :
  bounded prec emax m e = true →
  (Zpos n * 2 ^ Z.max (- e) 0 = Zpos m * 2 ^ Z.max e 0 * 10 ^ Z.of_nat k)%Z →
  Py.round_decimal neg (Npos n) (- Z.of_nat k) = S754_finite neg m e.
Proof.
  intros Hb Heq. unfold Py.round_decimal.
  rewrite Z.max_r, Z.max_l, Z.opp_involutive by lia.
  rewrite Z.pow_0_r, Z.mul_1_r. simpl Z.to_pos.
  apply SFdiv_exact; [done|].
  rewrite Z2Pos.id; [done|]. apply Z.pow_pos_nonneg; lia.
Qed.

(** The digits that [pretty] writes for a positive number. *)
Lemma pretty_pos_digits (q : positive) :
  ∃ ds, pretty (Npos q) = ds ∧ ds ≠ "" ∧ all_chars Py.isdigit ds = true ∧
        Py.digits_value 0 ds = Some (Npos q).
Proof.
  destruct (int_text_positive q) as (ds & H & _ & Hne & Hds & Hv).
  by exists ds.
Qed.

(** What [decimal_str] writes for a finite float: a sign and a numeral that
    denotes the float. *)
Lemma decimal_str_finite neg m e :
  bounded prec emax m e = true →
  ∃ c body n k,
    Py.decimal_str (S754_finite neg m e) = Py.sign_text neg +:+ String c body ∧
    Py.isdigit c = true ∧
    all_chars numeral_char (String c body) = true ∧
    Py.decimal (String c body) = Some (Npos n, (- Z.of_nat k)%Z) ∧
    (Zpos n * 2 ^ Z.max (- e) 0 = Zpos m * 2 ^ Z.max e 0 * 10 ^ Z.of_nat k)%Z.
Proof.
  intros Hb. unfold Py.decimal_str.
  destruct (0 <=? e)%Z eqn:He.
  - apply Z.leb_le in He.
    destruct (N.pos m * 2 ^ Z.to_N e)%N as [|q] eqn:Hq.
    { pose proof (N.pow_nonzero 2 (Z.to_N e)). lia. }
    destruct (pretty_pos_digits q) as (ds & -> & Hne & Hds & Hv).
    destruct (decimal_place_point ds 0 _ Hne Hds Hv)
      as (c & body & Hp & Hc & Hnum & Hdec).
    exists c, body, q, 0%nat. simpl in Hp. rewrite Hp.
    split; [done|]. split; [done|]. split; [done|]. split; [done|].
    rewrite Z.max_r, Z.max_l by lia.
    change (Zpos q) with (Z.of_N (Npos q)). rewrite <- Hq.
    rewrite N2Z.inj_mul, N2Z.inj_pow, Z2N.id by lia.
    simpl Z.of_N. simpl Z.of_nat. lia.
  - apply Z.leb_gt in He.
    destruct (Py.reduce m (Z.to_nat (- e))) as [m' k] eqn:Hr.
    destruct (reduce_spec _ _ _ _ Hr) as [Hk Hred].
    rewrite Z2Nat.id in Hred by lia.
    destruct (N.pos m' * 5 ^ N.of_nat k)%N as [|q] eqn:Hq.
    { pose proof (N.pow_nonzero 5 (N.of_nat k)). lia. }
    destruct (pretty_pos_digits q) as (ds & -> & Hne & Hds & Hv).
    destruct (decimal_place_point ds k _ Hne Hds Hv)
      as (c & body & Hp & Hc & Hnum & Hdec).
    exists c, body, q, k. rewrite Hp.
    split; [done|]. split; [done|]. split; [done|]. split; [done|].
    rewrite Z.max_l, Z.max_r by lia.
    change (Zpos q) with (Z.of_N (Npos q)). rewrite <- Hq.
    rewrite N2Z.inj_mul, N2Z.inj_pow, nat_N_Z.
    simpl Z.of_N. rewrite Z.pow_0_r, Z.mul_1_r.
    replace 10%Z with (2 * 5)%Z by done.
    rewrite Z.pow_mul_l.
    revert Hred.
    generalize (2 ^ Z.of_nat k)%Z (5 ^ Z.of_nat k)%Z (2 ^ (- e))%Z. 
    intros a b c' Hred.
    transitivity (Zpos m' * c' * b)%Z; [lia|]. rewrite <- Hred. lia.
Qed.

(** [float] reads back the exact decimal expansion of a binary64 value. *)
Lemma float_decimal_str x :
  valid_binary x = true → Py.float (Py.decimal_str x) = Some x.
Proof.
  destruct x as [[]|[]| |neg m e]; try reflexivity.
  intros Hb. change (bounded prec emax m e = true) in Hb.
  destruct (decimal_str_finite neg m e Hb)
    as (c & body & n & k & -> & Hc & Hnum & Hdec & Heq).
  rewrite (float_of_numeral _ _ _ _ _ Hc Hnum Hdec).
  by rewrite (round_decimal_exact _ _ _ _ _ Hb Heq).
Qed.

(** The expansion has no whitespace. *)
Lemma decimal_str_clean x :
  valid_binary x = true →
  all_chars (λ c, negb (Py.isspace c)) (Py.decimal_str x) = true.
Proof.
  destruct x as [[]|[]| |neg m e]; try reflexivity.
  intros Hb. change (bounded prec emax m e = true) in Hb.
  destruct (decimal_str_finite neg m e Hb)
    as (c & body & n & k & -> & Hc & Hnum & Hdec & Heq).
  assert (all_chars (λ c, negb (Py.isspace c)) (String c body) = true) as H.
  { eapply all_chars_impl, Hnum. intros a Ha.
    by destruct (numeral_classes a Ha) as (_ & -> & _). }
  destruct neg; [|exact H].
  change (Py.sign_text true +:+ String c body) with (String "-" (String c body)).
  by rewrite all_chars_cons, H.
Qed.

(** The exact decimal expansion is a way of writing a number. *)
Lemma decimal_str_writes x :
  is_number x = true → writes_float x (Py.decimal_str x).
Proof.
  intros [Hv Heq]%andb_true_iff. split; [|split].
  - by apply float_decimal_str.
  - by apply decimal_str_clean.
  - exact Heq.
Qed.

(** *** The number of digits of an integer *)

(** The digits that [pretty] writes for [x] are as many as the powers of
    ten up to [x]. *)
Lemma pretty_N_go_length x : ∀ k : nat,
  ((x < 10 ^ N.of_nat k)%N → (String.length (pretty_N_go x "") ≤ k)%nat) ∧
  ((10 ^ N.of_nat k ≤ x)%N → (k < String.length (pretty_N_go x ""))%nat).
Proof.
  induction (N.lt_wf_0 x) as [x _ IH]. intros k.
  assert (x = 0 ∨ 0 < x)%N as [->|Hx] by lia.
  { rewrite pretty_N_go_0. simpl. split; [lia|].
    pose proof (N.pow_nonzero 10 (N.of_nat k)). lia. }
  destruct (pretty_N_go_digits (x `div` 10)%N) as (ds & Hgo & _).
  assert (String.length (pretty_N_go x "")
          = S (String.length (pretty_N_go (x `div` 10)%N ""))) as ->.
  { rewrite pretty_N_go_step, !Hgo by done.
    rewrite length_app, append_empty. simpl. lia. }
  assert (x `div` 10 < x)%N as Hlt by (by apply N.div_lt).
  destruct k as [|k].
  { simpl. split; lia. }
  destruct (IH _ Hlt k) as [IH1 IH2].
  rewrite Nat2N.inj_succ, N.pow_succ_r'.
  split; intros H.
  - apply le_n_S, IH1. apply N.Div0.div_lt_upper_bound. lia.
  - apply ->Nat.succ_lt_mono. apply IH2. apply N.div_le_lower_bound; lia.
Qed.

(** An integer has no more than [k] digits exactly when its absolute value
    is below [10 ^ k]. *)
Lemma decimal_digits_bound (n : Z) (k : nat) :
  (0 < k)%nat →
  (Py.decimal_digits n ≤ Z.of_nat k)%Z ↔ (Z.abs n < 10 ^ Z.of_nat k)%Z.
Proof.
  intros Hk. unfold Py.decimal_digits, Py.int_text.
  assert (∀ p, pretty (Zpos p) = pretty_N_go (Npos p) "") as Hp.
  { intros p. change (pretty (Zpos p)) with (pretty (Npos p)).
    unfold pretty, pretty_N. by rewrite decide_False. }
  assert (∀ p, (Zpos p < 10 ^ Z.of_nat k)%Z
               ↔ (Npos p < 10 ^ N.of_nat k)%N) as Hcmp.
  { intros p. change (Zpos p) with (Z.of_N (Npos p)).
    rewrite <- nat_N_Z. change 10%Z with (Z.of_N 10).
    rewrite <- N2Z.inj_pow. symmetry. apply N2Z.inj_lt. }
  assert (∀ p, (Z.of_nat (String.length (pretty (Zpos p))) ≤ Z.of_nat k)%Z
               ↔ (Zpos p < 10 ^ Z.of_nat k)%Z) as Hpos.
  { intros p. rewrite Hp, Hcmp.
    destruct (pretty_N_go_length (Npos p) k) as [H1 H2]. split.
    - intros Hl. destruct (N.lt_ge_cases (Npos p) (10 ^ N.of_nat k)) as [|Hge];
        [done|]. specialize (H2 Hge). lia.
    - intros Hl. specialize (H1 Hl). lia. }
  destruct n as [|p|p].
  - change (String.length (pretty (Z.abs 0))) with 1%nat.
    change (Z.abs 0) with 0%Z. split; intros _.
    + apply Z.pow_pos_nonneg; lia.
    + clear -Hk. lia.
  - apply Hpos.
  - apply Hpos.
Qed.

(** Within the limit both [str] and [int] work; beyond it both raise. *)
Lemma int_over_limit ds :
  all_chars Py.isdigit ds = true →
  (Py.MAX_STR_DIGITS < Z.of_nat (String.length ds))%Z →
  Py.int ds = None ∧ Py.int (String "-" ds) = None.
Proof.
  intros Hds Hlen.
  assert (all_chars (λ c, negb (Py.is_number_space c)) ds = true) as Hns.
  { eapply all_chars_impl, Hds. intros c Hc.
    by destruct (digit_classes c Hc) as (-> & _). }
  assert (all_chars (λ c, negb (Ascii.eqb c "_")) ds = true) as Hu.
  { eapply all_chars_impl, Hds. intros c Hc.
    by destruct (digit_classes c Hc) as (_ & _ & _ & -> & _). }
  apply Z.ltb_lt in Hlen.
  destruct ds as [|c r]; [done|].
  pose proof Hds as [Hc _]%andb_true_iff.
  destruct (digit_classes c Hc) as (Hc1 & _ & _ & _ & Hc5 & Hc6 & _).
  unfold Py.int, Py.strip_by. split.
  - rewrite lstrip_by_cons, rstrip_by_clean, drop_underscores_none by done.
    unfold Py.take_sign. rewrite Hc5, Hc6, Hlen.
    by destruct (Py.number (String c r)).
  - rewrite lstrip_by_cons by done.
    rewrite rstrip_by_clean by (by rewrite all_chars_cons, Hns).
    rewrite drop_underscores_none by (by rewrite all_chars_cons, Hu).
    unfold Py.take_sign. simpl Ascii.eqb. cbv iota. rewrite Hlen.
    by destruct (Py.number (String c r)).
Qed.

Lemma within_limit (n : Z) :
  (Z.abs n < 10 ^ Py.MAX_STR_DIGITS)%Z →
  Py.str_int n = Some (Py.int_text n) ∧ Py.int (Py.int_text n) = Some n.
Proof.
  intros H.
  apply (decimal_digits_bound n 4300 ltac:(lia)) in H.
  split; [by apply str_int_within | by apply int_str_int].
Qed.

Lemma beyond_limit (n : Z) :
  (10 ^ Py.MAX_STR_DIGITS ≤ Z.abs n)%Z →
  Py.str_int n = None ∧ Py.int (Py.int_text n) = None.
Proof.
  intros H.
  pose proof (decimal_digits_bound n 4300 ltac:(lia)) as Hb.
  change (Z.of_nat 4300) with Py.MAX_STR_DIGITS in Hb.
  assert (Py.MAX_STR_DIGITS < Py.decimal_digits n)%Z as Hd.
  { destruct (Z.lt_ge_cases Py.MAX_STR_DIGITS (Py.decimal_digits n))
      as [|Hle]; [done|]. apply Hb in Hle. lia. }
  split.
  { unfold Py.str_int. apply Z.ltb_lt in Hd. by rewrite Hd. }
  unfold Py.decimal_digits in Hd.
  destruct n as [|p|p].
  - vm_compute in Hd. discriminate Hd.
  - change (Z.abs (Zpos p)) with (Zpos p) in Hd.
    destruct (int_text_positive p) as (ds & Hpos & _ & _ & Hds & _).
    rewrite Hpos in Hd |- *. by destruct (int_over_limit ds Hds Hd).
  - change (Z.abs (Zneg p)) with (Zpos p) in Hd.
    destruct (int_text_positive p) as (ds & Hpos & Hneg & _ & Hds & _).
    rewrite Hpos in Hd. rewrite Hneg. by destruct (int_over_limit ds Hds Hd).
Qed.

(** *** The line of a record *)

Lemma nonspace_classes c :
  Py.isspace c = false → Ascii.eqb c " " = false ∧ Py.is_linebreak c = false.
Proof.
  destruct c as [[] [] [] [] [] [] [] []]; vm_compute; intros H;
    first [discriminate H | by split].
Qed.

Lemma nonspace_token t :
  all_chars (λ c, negb (Py.isspace c)) t = true → is_token t = true.
Proof.
  apply all_chars_impl. intros c Hc%negb_true_iff.
  by destruct (nonspace_classes c Hc) as [-> ->].
Qed.

Lemma token_no_space t :
  is_token t = true → all_chars (λ c, negb (Ascii.eqb c " ")) t = true.
Proof. apply all_chars_impl. by intros c [-> _]%andb_true_iff. Qed.

Lemma token_no_linebreak t :
  is_token t = true → all_chars (λ c, negb (Py.is_linebreak c)) t = true.
Proof. apply all_chars_impl. by intros c [_ ->]%andb_true_iff. Qed.

Section RoundTrip.

Variables (sample_name : string) (r : Rec.t).

Hypothesis label_ok : is_label (Rec.variants r) = true.
Hypothesis name_ok : is_token sample_name = true.
Hypothesis ints_ok :
  Forall (λ n, (Z.abs n < 10 ^ Py.MAX_STR_DIGITS)%Z)
         (Rec.bins r :: Rec.counts r).
Hypothesis floats_ok : Forall (λ x, is_number x = true) (Rec.measures r).

Let t1 : string := Py.decimal_str (Rec.RR_hom_mismatches_rate_percent r).
Let t2 : string := Py.decimal_str (Rec.RA_het_mismatches_rate_percent r).
Let t3 : string := Py.decimal_str (Rec.AA_hom_mismatches_rate_percent r).
Let t4 : string :=
  Py.decimal_str (Rec.non_reference_discordanc_rate_percent r).
Let t5 : string := Py.decimal_str (Rec.best_gt_rsquared r).
Let t6 : string := Py.decimal_str (Rec.imputed_ds_rsquared r).

Let floats : list string := [t1; t2; t3; t4; t5; t6].
Let tokens : list string :=
  ([ Rec.variants r; Py.int_text (Rec.bins r); sample_name ]
   ++ map Py.int_text (Rec.counts r) ++ floats)%list.
Let line : string := Py.join " " tokens.

(** Each measure is written by its expansion. *)
Lemma record_measures_written :
  writes_float (Rec.RR_hom_mismatches_rate_percent r) t1 ∧
  writes_float (Rec.RA_het_mismatches_rate_percent r) t2 ∧
  writes_float (Rec.AA_hom_mismatches_rate_percent r) t3 ∧
  writes_float (Rec.non_reference_discordanc_rate_percent r) t4 ∧
  writes_float (Rec.best_gt_rsquared r) t5 ∧
  writes_float (Rec.imputed_ds_rsquared r) t6.
Proof.
  pose proof floats_ok as H. unfold Rec.measures in H.
  repeat (apply Forall_cons in H as [? H]).
  repeat split; by apply decimal_str_writes.
Qed.

(** [str] writes every integer of the record, so the line exists. *)
Lemma record_serialised : serialise sample_name r = Some line.
Proof.
  pose proof ints_ok as H. unfold Rec.counts in H.
  repeat (let Hn := fresh "Hn" in
          apply Forall_cons in H as [Hn H];
          apply within_limit in Hn as [Hn _]).
  unfold serialise, tokens_of, positional, Rec.counts, Rec.measures.
  cbn [app map mapM write_value].
  repeat match goal with
         | E : Py.str_int ?n = Some _ |- context [Py.str_int ?n] =>
             rewrite E; clear E
         end.
  reflexivity.
Qed.

Lemma record_tokens : Forall (λ t, is_token t = true) tokens.
Proof.
  destruct record_measures_written
    as (float1 & float2 & float3 & float4 & float5 & float6).
  destruct float1 as (_ & ? & _), float2 as (_ & ? & _), float3 as (_ & ? & _),
    float4 as (_ & ? & _), float5 as (_ & ? & _), float6 as (_ & ? & _).
  apply andb_true_iff in label_ok as [? _].
  unfold tokens, floats, Rec.counts. simpl.
  repeat constructor; auto using int_text_token, nonspace_token.
Qed.

Lemma record_line_stripped : Py.strip line = line ∧ line ≠ "".
Proof.
  destruct record_measures_written as (_ & _ & _ & _ & _ & float6).
  destruct float6 as (Hf & Hclean & _).
  assert (t6 ≠ "") as Hne by (by intros Ht; rewrite Ht in Hf).
  pose proof label_ok as [_ Hc]%andb_true_iff.
  destruct (Rec.variants r) as [|c v] eqn:Hv; [discriminate Hc|].
  apply andb_true_iff in Hc as [Hc%negb_true_iff _].
  set (front := ([String c v; Py.int_text (Rec.bins r); sample_name]
                 ++ map Py.int_text (Rec.counts r)
                 ++ [t1; t2; t3; t4; t5])%list).
  assert (tokens = (front ++ [t6])%list) as Ht.
  { unfold tokens, floats, front. by rewrite ?Hv. }
  destruct (rstrip_by_join Py.isspace " " front t6 Hne Hclean) as [Hr Hn].
  unfold line. rewrite Ht. split; [|exact Hn].
  unfold Py.strip, Py.strip_by.
  assert (∃ rest, Py.join " " (front ++ [t6]) = String c rest)
    as [rest Hrest] by (by eexists).
  rewrite Hrest in Hr |- *. by rewrite lstrip_by_cons.
Qed.

Lemma record_line_fields : fields_of line = tokens.
Proof.
  unfold fields_of. rewrite (proj1 record_line_stripped).
  unfold line. apply split_join.
  - discriminate.
  - eapply Forall_impl; [apply record_tokens|]. apply token_no_space.
Qed.

Lemma record_fields_parse :
  parse_fields tokens = ([], Ok (sample_name, Rec.to_dict r)).
Proof.
  destruct record_measures_written
    as (float1 & float2 & float3 & float4 & float5 & float6).
  destruct float1 as (H1 & _), float2 as (H2 & _), float3 as (H3 & _),
    float4 as (H4 & _), float5 as (H5 & _), float6 as (H6 & _).
  pose proof ints_ok as H. unfold Rec.counts in H.
  repeat (let Hn := fresh "Hn" in
          apply Forall_cons in H as [Hn H];
          apply within_limit in Hn as [_ Hn]).
  unfold tokens, floats, Rec.counts. cbn [app map].
  unfold parse_fields.
  repeat match goal with
         | E : Py.int (Py.int_text ?n) = Some _
           |- context [to_int (Py.int_text ?n)] =>
             rewrite to_int_bind, E; clear E
         end.
  rewrite to_float_bind, H1, to_float_bind, H2, to_float_bind, H3,
    to_float_bind, H4, to_float_bind, H5, to_float_bind, H6.
  reflexivity.
Qed.

(** The line of a record is an accepted data line, for its sample name and
    its values. *)
Lemma record_line_accepted :
  accepted line = Some (sample_name, Rec.to_dict r).
Proof.
  destruct record_line_stripped as [Hs Hne].
  unfold accepted, is_blank, is_comment.
  rewrite Hs, record_line_fields.
  replace (String.eqb line "") with false
    by (symmetry; by apply String.eqb_neq).
  pose proof label_ok as [_ Hc]%andb_true_iff.
  pose proof record_fields_parse as Hp. revert Hp.
  unfold tokens.
  destruct (Rec.variants r) as [|c v] eqn:Hv; [discriminate Hc|].
  apply andb_true_iff in Hc as [_ Hc%negb_true_iff].
  intros Hp. simpl. rewrite Hc. simpl. simpl in Hp.
  by rewrite Hp.
Qed.

(** The header and the line of a record are the two lines of their text. *)
Lemma record_report_lines s_name :
  Py.splitlines (f_f (report s_name [line])) = [expected_header; line].
Proof.
  destruct record_line_stripped as [_ Hne].
  change (f_f (report s_name [line]))
    with (expected_header +:+ String "010" line).
  rewrite splitlines_first_line by reflexivity.
  rewrite splitlines_one_line; [done|done|].
  unfold line. apply all_chars_join; [done|].
  eapply Forall_impl; [apply record_tokens|]. apply token_no_linebreak.
Qed.

Lemma record_report_parses s_name :
  parse_err_spl_report (report s_name [line])
  = ([], Ok {[ sample_name := Rec.to_dict r ]}).
Proof.
  rewrite (parse_header _ [line]) by apply record_report_lines.
  unfold parse_lines. rewrite (parse_line_accepted _ _ _ _ record_line_accepted).
  rewrite insert_empty. reflexivity.
Qed.

Lemma record_eq_itself : record_eq (Rec.to_dict r) (Rec.to_dict r) = true.
Proof.
  destruct record_measures_written
    as (float1 & float2 & float3 & float4 & float5 & float6).
  destruct float1 as (_ & _ & H1), float2 as (_ & _ & H2),
    float3 as (_ & _ & H3), float4 as (_ & _ & H4), float5 as (_ & _ & H5),
    float6 as (_ & _ & H6).
  unfold Rec.to_dict. simpl.
  rewrite !String.eqb_refl, !Z.eqb_refl, H1, H2, H3, H4, H5, H6.
  reflexivity.
Qed.

(** The round trip of one record. *)
Lemma record_round_trip s_name :
  ∃ l,
    serialise sample_name r = Some l ∧
    parse_err_spl_report (report s_name [l])
    = ([], Ok {[ sample_name := Rec.to_dict r ]}) ∧
    record_eq (Rec.to_dict r) (Rec.to_dict r) = true.
Proof.
  exists line. split; [apply record_serialised|]. split.
  - apply record_report_parses.
  - apply record_eq_itself.
Qed.

End RoundTrip.




(** The other two conditions are needed as well.  An integer of 4301 digits
    or more is neither written by [str] nor read by [int], so a Record that
    holds one has no line, and no line gives it back. *)
Lemma digit_limit_breaks_round_trip (sample_name : string) (r : Rec.t) :
  Exists (λ n, (10 ^ Py.MAX_STR_DIGITS ≤ Z.abs n)%Z)
         (Rec.bins r :: Rec.counts r) →
  serialise sample_name r = None ∧
  Exists (λ n, Py.int (Py.int_text n) = None) (Rec.bins r :: Rec.counts r).
Proof.
  intros H. split.
  - unfold serialise, tokens_of.
    destruct (mapM write_value (positional sample_name r)) as [ts|] eqn:E;
      [|done].
    exfalso. assert (is_Some (mapM write_value (positional sample_name r)))
      as Hs by (by eexists).
    apply mapM_is_Some in Hs. rewrite Forall_forall in Hs.
    apply Exists_exists in H as (n & Hin & [Hn _]%beyond_limit).
    destruct (Hs (VInt n)) as [t Ht]; [|simpl in Ht; congruence].
    unfold positional, Rec.counts in *. simpl.
    repeat (apply elem_of_cons in Hin as [->|Hin]);
      [set_solver.. | by apply elem_of_nil in Hin].
  - eapply Exists_impl; [exact H|]. intros n Hn. simpl in Hn.
    by apply beyond_limit.
Qed.

(** A record that holds a NaN is not equal to itself, whatever is parsed. *)
Lemma nan_breaks_round_trip (r : Rec.t) :
  In S754_nan (Rec.measures r) →
  record_eq (Rec.to_dict r) (Rec.to_dict r) = false.
Proof.
  destruct r. unfold Rec.measures, Rec.to_dict. simpl.
  rewrite !String.eqb_refl, !Z.eqb_refl. simpl.
  intros [->|[->|[->|[->|[->|[->|[]]]]]]]; simpl;
    rewrite ?andb_false_r; reflexivity.
Qed.

(** * Further properties of the code *)

(** ** Comment lines *)

Lemma parse_lines_skip_comment parsed_data line rest :
  is_comment line = true →
  parse_lines parsed_data (line :: rest) = parse_lines parsed_data rest.
Proof.
  intros H. rewrite parse_lines_cons, (parse_line_comment _ _ H), bind_log_ok.
  by destruct (parse_lines parsed_data rest).
Qed.

Lemma parse_lines_without_comments lines : ∀ parsed_data,
  parse_lines parsed_data (filter (λ l, is_comment l = false) lines)
  = parse_lines parsed_data lines.
Proof.
  induction lines as [|line rest IH]; intros d; [done|].
  destruct (is_comment line) eqn:Hc.
  - rewrite filter_cons_False by (by rewrite Hc).
    by rewrite parse_lines_skip_comment, IH.
  - rewrite filter_cons_True by done. rewrite !parse_lines_cons.
    destruct (parse_line d line) as [l [d'|e]]; [|done].
    by rewrite !bind_log_ok, IH.
Qed.

(** X1.  Comment lines after the header have no effect at all: a text and
    the text without its comment lines give the same messages and the same
    result, be it a mapping or an exception. *)
Theorem comments_have_no_effect (f f' : LogFile) (rest : list string) :
  Py.splitlines (f_f f) = expected_header :: rest →
  Py.splitlines (f_f f')
  = expected_header :: filter (λ l, is_comment l = false) rest →
  parse_err_spl_report f' = parse_err_spl_report f.
Proof.
  intros H H'. rewrite (parse_header _ _ H), (parse_header _ _ H').
  apply parse_lines_without_comments.
Qed.

Lemma comments_have_no_effect_witness :
  parse_err_spl_report (report "NA12878" [example_line; second_line])
  = parse_err_spl_report
      (report "NA12878"
         [ "#GCsS id sample_name"; example_line;
           "#Genotype concordance by sample (indels)"; second_line ]).
Proof.
  apply (comments_have_no_effect
           (report "NA12878"
              [ "#GCsS id sample_name"; example_line;
                "#Genotype concordance by sample (indels)"; second_line ])
           (report "NA12878" [example_line; second_line])
           [ "#GCsS id sample_name"; example_line;
             "#Genotype concordance by sample (indels)"; second_line ]);
    vm_compute; reflexivity.
Defined.

(** ** When the parse returns *)



(** ** Where the records of the mapping come from *)

Lemma foldl_line_effect_lookup lines : ∀ parsed_data k r,
  foldl line_effect parsed_data lines !! k = Some r →
  parsed_data !! k = Some r
  ∨ ∃ line, line ∈ lines ∧ accepted line = Some (k, r).
Proof.
  induction lines as [|line rest IH]; intros d k r H; [by left|].
  simpl in H. apply IH in H as [H|(l & Hl & Ha)].
  - unfold line_effect in H.
    destruct (accepted line) as [[k' r']|] eqn:Ha; [|by left].
    destruct (decide (k' = k)) as [->|Hne].
    + rewrite lookup_insert_eq in H. inversion H; subst.
      right. exists line. split; [apply list_elem_of_here | done].
    + rewrite lookup_insert_ne in H by done. by left.
  - right. exists l. split; [by apply list_elem_of_further | done].
Qed.

Lemma foldl_line_effect_dom lines : ∀ parsed_data,
  dom (foldl line_effect parsed_data lines)
  = dom parsed_data ∪ list_to_set (omap key_of lines).
Proof.
  induction lines as [|line rest IH]; intros d; simpl.
  - set_solver.
  - rewrite IH. unfold line_effect, key_of.
    destruct (accepted line) as [[k r]|]; simpl.
    + rewrite dom_insert_L. set_solver.
    + done.
Qed.

(** X3.  The keys of the mapping that the parse returns are exactly the
    sample names of the accepted data lines, and every record in it is the
    record of one of these lines, stored under that line's sample name:
    nothing else enters the mapping. *)
Theorem returned_mapping_comes_from_lines (f : LogFile) (first : string)
    (rest : list string) (lg : list log_record) (m : gmap string record) :
  Py.splitlines (f_f f) = first :: rest →
  parse_err_spl_report f = (lg, Ok m) →
  (first = expected_header → dom m = list_to_set (omap key_of rest)) ∧
  (∀ k r, m !! k = Some r →
     first = expected_header
     ∧ ∃ line, line ∈ rest ∧ accepted line = Some (k, r)).
Proof.
  intros Hl Hp.
  destruct (decide (first = expected_header)) as [->|Hne].
  - rewrite (parse_header _ _ Hl) in Hp.
    pose proof (parse_lines_ok _ _ _ _ Hp) as Ht.
    rewrite (parse_lines_tolerated _ _ Ht) in Hp. inversion Hp; subst.
    split.
    + intros _. rewrite foldl_line_effect_dom. set_solver.
    + intros k r Hk. split; [done|].
      apply foldl_line_effect_lookup in Hk as [Hk|Hk]; [|done].
      by rewrite lookup_empty in Hk.
  - rewrite (parse_wrong_header _ _ _ Hl Hne) in Hp. inversion Hp; subst.
    split; [done|]. intros k r Hk. by rewrite lookup_empty in Hk.
Qed.

Lemma returned_mapping_comes_from_lines_witness :
  (expected_header = expected_header →
   dom ({[ "NA12878" := second_record ]} : gmap string record)
   = list_to_set (omap key_of [example_line; "#indels"; second_line])) ∧
  (∀ k r, ({[ "NA12878" := second_record ]} : gmap string record) !! k = Some r →
     expected_header = expected_header
     ∧ ∃ line, line ∈ [example_line; "#indels"; second_line]
               ∧ accepted line = Some (k, r)).
Proof.
  apply (returned_mapping_comes_from_lines
           (report "NA12878" [example_line; "#indels"; second_line])
           expected_header [example_line; "#indels"; second_line] []).
  - vm_compute; reflexivity.
  - vm_compute; reflexivity.
Defined.

(** ** The shape of the records *)

Lemma accepted_record_keys line k r :
  accepted line = Some (k, r) → r.*1 = RECORD_KEYS.
Proof.
  intros H. pose proof (accepted_length _ _ H) as Hn.
  apply accepted_fields in H. revert H Hn.
  generalize (fields_of line) as fields. intros fields H Hn.
  nineteen fields; try discriminate Hn. clear Hn. revert H.
  unfold parse_fields. repeat (coerce_step; [|discriminate]).
  by intros [= <- <-].
Qed.

(** X4.  Every record of every mapping that the parse returns has the same
    eighteen field names, in the order of the [dict(...)] call, each once;
    the sample name is not among them. *)
Theorem returned_records_have_fixed_keys (f : LogFile)
    (lg : list log_record) (m : gmap string record) (k : string) (r : record) :
  parse_err_spl_report f = (lg, Ok m) →
  m !! k = Some r →
  r.*1 = RECORD_KEYS ∧ NoDup (r.*1) ∧ length r = 18%nat
  ∧ "sample_name" ∉ r.*1.
Proof.
  intros Hp Hk.
  destruct (Py.splitlines (f_f f)) as [|first rest] eqn:Hl.
  { by rewrite parse_no_line in Hp. }
  assert (∃ line, accepted line = Some (k, r)) as [line Ha].
  { destruct (decide (first = expected_header)) as [->|Hne].
    - rewrite (parse_header _ _ Hl) in Hp.
      pose proof (parse_lines_ok _ _ _ _ Hp) as Ht.
      rewrite (parse_lines_tolerated _ _ Ht) in Hp. inversion Hp; subst.
      apply foldl_line_effect_lookup in Hk as [Hk|(line & _ & Ha)]; [|eauto].
      by rewrite lookup_empty in Hk.
    - rewrite (parse_wrong_header _ _ _ Hl Hne) in Hp. inversion Hp; subst.
      by rewrite lookup_empty in Hk. }
  pose proof (accepted_record_keys _ _ _ Ha) as Hkeys.
  assert (length r = 18%nat) as Hlen.
  { by rewrite <- (length_fmap fst r), Hkeys. }
  rewrite Hkeys. repeat split; [|done|].
  - apply (bool_decide_unpack (NoDup RECORD_KEYS)). vm_compute. exact I.
  - apply (bool_decide_unpack ("sample_name" ∉ RECORD_KEYS)). vm_compute.
    exact I.
Qed.

Lemma returned_records_have_fixed_keys_witness :
  example_record.*1 = RECORD_KEYS ∧ NoDup (example_record.*1)
  ∧ length example_record = 18%nat ∧ "sample_name" ∉ example_record.*1.
Proof.
  apply (returned_records_have_fixed_keys
           (report "NA12878" [example_line]) [] {[ "NA12878" := example_record ]}
           "NA12878" example_record).
  - vm_compute; reflexivity.
  - vm_compute; reflexivity.
Defined.

(** ** What is logged *)

Lemma parse_line_logged parsed_data line :
  logged (parse_line parsed_data line) = []
  ∨ parse_line parsed_data line
    = ([LogRecord WARNING (skipping_message (fields_of line) line)],
       Raise ValueError).
Proof.
  destruct (is_blank line) eqn:Hb.
  { left. by rewrite parse_line_blank. }
  destruct (is_comment line) eqn:Hc.
  { left. by rewrite parse_line_comment. }
  destruct (decide (length (fields_of line) = 19%nat)) as [Hn|Hn].
  - left. rewrite parse_line_data by done. rewrite Hn. simpl negb. cbv iota.
    rewrite bind_ok.
    pose proof (parse_fields_logged (fields_of line)) as Hl.
    destruct (parse_fields (fields_of line)) as [l [[k r]|e]];
      simpl in Hl; by subst.
  - right. by apply parse_line_wrong_count.
Qed.

Lemma parse_lines_logged lines : ∀ parsed_data,
  logged (parse_lines parsed_data lines) = []
  ∨ ∃ line, line ∈ lines ∧
      parse_lines parsed_data lines
      = ([LogRecord WARNING (skipping_message (fields_of line) line)],
         Raise ValueError).
Proof.
  induction lines as [|line rest IH]; intros d; [by left|].
  rewrite parse_lines_cons.
  destruct (parse_line_logged d line) as [H|H].
  - destruct (parse_line d line) as [l [d'|e]]; simpl in H; subst.
    + rewrite bind_log_ok. simpl.
      destruct (IH d') as [H'|(l & Hin & H')].
      * by left.
      * right. exists l. split; [by apply list_elem_of_further|].
        by rewrite H'.
    + by left.
  - right. exists line. split; [apply list_elem_of_here|]. by rewrite H.
Qed.

(** X5.  A call logs at most one message, and which one tells the result:
    the warning about the header comes with the empty mapping, and the
    warning that a line is skipped comes with [ValueError], never with a
    mapping. *)
Theorem at_most_one_message (f : LogFile) :
  logged (parse_err_spl_report f) = []
  ∨ (∃ first,
       parse_err_spl_report f
       = ([LogRecord WARNING (header_message first)], Ok ∅))
  ∨ (∃ line,
       parse_err_spl_report f
       = ([LogRecord WARNING (skipping_message (fields_of line) line)],
          Raise ValueError)).
Proof.
  destruct (Py.splitlines (f_f f)) as [|first rest] eqn:Hl.
  { left. by rewrite parse_no_line. }
  destruct (decide (first = expected_header)) as [->|Hne].
  - rewrite (parse_header _ _ Hl).
    destruct (parse_lines_logged rest ∅) as [H|(line & _ & H)];
      [by left | right; right; eauto].
  - right. left. exists first. by apply (parse_wrong_header _ _ rest).
Qed.

(** ** The first line that is not tolerated decides the error *)

Lemma parse_line_untolerated parsed_data line :
  tolerated line = false →
  parse_line parsed_data line
  = if is_blank line then ([], Raise IndexError)
    else if Nat.eqb (length (fields_of line)) 19
         then ([], Raise ValueError)
         else ([LogRecord WARNING (skipping_message (fields_of line) line)],
               Raise ValueError).
Proof.
  intros Ht. destruct (is_blank line) eqn:Hb.
  { by apply parse_line_blank. }
  assert (is_comment line = false) as Hc.
  { unfold tolerated in Ht. by apply orb_false_iff in Ht as [-> _]. }
  destruct (Nat.eqb_spec (length (fields_of line)) 19) as [Hn|Hn].
  - destruct (parse_line parsed_data line) as [l [m|e]] eqn:Hp.
    + apply parse_line_ok in Hp. congruence.
    + destruct (parse_line_logged parsed_data line) as [H|H].
      * rewrite Hp in H. simpl in H. subst l. f_equal.
        rewrite parse_line_data in Hp by done.
        pose proof (parse_fields_raises (fields_of line)) as Hr.
        destruct (parse_fields (fields_of line)) as [l' [[k r]|e']];
          simpl in Hr; revert Hp; destruct (negb _); simpl;
          try discriminate; intros [= _ <-]; f_equal; by apply Hr.
      * rewrite Hp in H. inversion H; subst.
        rewrite parse_line_data in Hp by done. rewrite Hn in Hp.
        simpl negb in Hp. cbv iota in Hp. rewrite bind_ok in Hp.
        pose proof (parse_fields_logged (fields_of line)) as Hl.
        destruct (parse_fields (fields_of line)) as [l' [[k r]|e']];
          simpl in Hl; subst; discriminate Hp.
  - by apply parse_line_wrong_count.
Qed.

(** X6.  After the header, the first line that is neither a comment nor an
    accepted data line decides how the call ends, whatever follows it: a
    blank line gives [IndexError]; a line of nineteen tokens gives
    [ValueError] (a numeric token does not coerce); any other line gives
    the warning that it is skipped and then [ValueError]. *)
Theorem first_fault_decides (f : LogFile) (l1 l2 : list string)
    (bad : string) :
  Py.splitlines (f_f f) = expected_header :: (l1 ++ bad :: l2)%list →
  Forall (λ l, tolerated l = true) l1 →
  tolerated bad = false →
  parse_err_spl_report f
  = if is_blank bad then ([], Raise IndexError)
    else if Nat.eqb (length (fields_of bad)) 19
         then ([], Raise ValueError)
         else ([LogRecord WARNING (skipping_message (fields_of bad) bad)],
               Raise ValueError).
Proof.
  intros Hl H1 Hbad. rewrite (parse_header _ _ Hl).
  destruct (is_blank bad) eqn:Hb;
    [|destruct (Nat.eqb (length (fields_of bad)) 19) eqn:Hn];
    apply parse_lines_first_fault; try done;
    rewrite (parse_line_untolerated _ _ Hbad), Hb; [done| |];
    by rewrite Hn.
Qed.

Lemma first_fault_decides_witness :
  parse_err_spl_report
    (report "NA12878"
       [example_line; "GCsS" +:+ String "009" "0"; ""; second_line])
  = ([LogRecord WARNING
        (skipping_message ["GCsS" +:+ String "009" "0"]
                          ("GCsS" +:+ String "009" "0"))],
     Raise ValueError).
Proof.
  apply (first_fault_decides
           (report "NA12878"
              [example_line; "GCsS" +:+ String "009" "0"; ""; second_line])
           [example_line] [""; second_line] ("GCsS" +:+ String "009" "0"));
    [vm_compute; reflexivity | repeat constructor | vm_compute; reflexivity].
Defined.

(** ** The order of the lines *)

Lemma key_of_accepted line k r : accepted line = Some (k, r) → key_of line = Some k.
Proof. unfold key_of. by intros ->. Qed.

Lemma not_key_not_accepted lines k :
  k ∉ omap key_of lines →
  Forall (λ l, ∀ r, accepted l ≠ Some (k, r)) lines.
Proof.
  intros Hk. apply Forall_forall. intros l Hl r Ha. apply Hk.
  apply list_elem_of_omap. exists l. split; [done|].
  by eapply key_of_accepted.
Qed.

Lemma foldl_line_effect_distinct lines : ∀ parsed_data line k r,
  NoDup (omap key_of lines) →
  line ∈ lines → accepted line = Some (k, r) →
  foldl line_effect parsed_data lines !! k = Some r.
Proof.
  induction lines as [|l rest IH]; intros d line k r Hnd Hin Ha.
  { by apply elem_of_nil in Hin. }
  simpl. apply elem_of_cons in Hin as [<-|Hin].
  - simpl in Hnd. rewrite (key_of_accepted _ _ _ Ha) in Hnd.
    apply NoDup_cons in Hnd as [Hk _].
    rewrite (foldl_line_effect_other _ _ _ (not_key_not_accepted _ _ Hk)).
    by apply line_effect_same.
  - eapply IH; [|done..]. simpl in Hnd.
    destruct (key_of l); [by apply NoDup_cons in Hnd as [_ ?] | done].
Qed.

(** X7.  When no two accepted data lines carry the same sample name, the
    order of the lines after the header does not matter: a text whose lines
    are the same in another order parses to the same mapping. *)
Theorem line_order_is_irrelevant (f f' : LogFile) (rest rest' : list string)
    (lg : list log_record) (m : gmap string record) :
  Py.splitlines (f_f f) = expected_header :: rest →
  Py.splitlines (f_f f') = expected_header :: rest' →
  rest ≡ₚ rest' →
  NoDup (omap key_of rest) →
  parse_err_spl_report f = (lg, Ok m) →
  parse_err_spl_report f' = ([], Ok m).
Proof.
  intros Hl Hl' Hperm Hnd Hp.
  rewrite (parse_header _ _ Hl) in Hp. rewrite (parse_header _ _ Hl').
  pose proof (parse_lines_ok _ _ _ _ Hp) as Ht.
  rewrite (parse_lines_tolerated _ _ Ht) in Hp. inversion Hp; subst.
  assert (Forall (λ l, tolerated l = true) rest') as Ht'.
  { by rewrite <- Hperm. }
  rewrite (parse_lines_tolerated _ _ Ht'). f_equal. f_equal.
  assert (NoDup (omap key_of rest')) as Hnd'.
  { by rewrite <- Hperm. }
  apply map_eq. intros k.
  destruct (foldl line_effect ∅ rest !! k) as [r|] eqn:Hk.
  - apply foldl_line_effect_lookup in Hk as [Hk|(line & Hin & Ha)].
    { by rewrite lookup_empty in Hk. }
    rewrite Hperm in Hin. by eapply foldl_line_effect_distinct.
  - destruct (foldl line_effect ∅ rest' !! k) as [r'|] eqn:Hk'; [|done].
    apply foldl_line_effect_lookup in Hk' as [Hk'|(line & Hin & Ha)].
    { by rewrite lookup_empty in Hk'. }
    rewrite <- Hperm in Hin.
    by rewrite (foldl_line_effect_distinct _ _ _ _ _ Hnd Hin Ha) in Hk.
Qed.

Lemma line_order_is_irrelevant_witness :
  parse_err_spl_report
    (report "run" [other_sample_line; "#GCsS id sample_name"; example_line])
  = ([], Ok (foldl line_effect ∅ [example_line; other_sample_line])).
Proof.
  apply (line_order_is_irrelevant
           (report "run"
              [example_line; "#GCsS id sample_name"; other_sample_line])
           (report "run"
              [other_sample_line; "#GCsS id sample_name"; example_line])
           [example_line; "#GCsS id sample_name"; other_sample_line]
           [other_sample_line; "#GCsS id sample_name"; example_line]
           []).
  - vm_compute; reflexivity.
  - vm_compute; reflexivity.
  - apply (bool_decide_unpack _). vm_compute. exact I.
  - apply (bool_decide_unpack _). vm_compute. exact I.
  - vm_compute; reflexivity.
Defined.

(** ** The loop over the log files, [collect_err_spl] *)

Lemma collect_err_spl_cons data_by_sample f rest :
  collect_err_spl data_by_sample (f :: rest)
  = (metrics ← parse_err_spl_report f;
     if (0 <? size metrics)%nat then
       (if is_some (data_by_sample !! f_s_name f)
        then debug (duplicate_message (f_s_name f)) else mret tt) ;;
       collect_err_spl (<[f_s_name f := metrics]> data_by_sample) rest
     else collect_err_spl data_by_sample rest).
Proof. reflexivity. Qed.

(** One step of the loop on a file whose parse returns. *)
Lemma collect_err_spl_step data_by_sample f rest lg metrics :
  parse_err_spl_report f = (lg, Ok metrics) →
  collect_err_spl data_by_sample (f :: rest)
  = ((lg ++ duplicate_log data_by_sample (f_s_name f) metrics
         ++ logged (collect_err_spl
                      (file_effect data_by_sample (f_s_name f) metrics) rest))%list,
     outcome (collect_err_spl
                (file_effect data_by_sample (f_s_name f) metrics) rest)).
Proof.
  intros Hp. rewrite collect_err_spl_cons, Hp, bind_log_ok.
  unfold file_effect, duplicate_log.
  destruct (0 <? size metrics)%nat; simpl.
  - destruct (is_some (data_by_sample !! f_s_name f)); simpl;
      by destruct (collect_err_spl _ rest).
  - by destruct (collect_err_spl _ rest).
Qed.

Lemma parse_err_spl_report_raises f lg e :
  parse_err_spl_report f = (lg, Raise e) → e = IndexError ∨ e = ValueError.
Proof.
  intros H. destruct (Py.splitlines (f_f f)) as [|first rest] eqn:Hl.
  { rewrite parse_no_line in H by done. left. by inversion H. }
  destruct (decide (first = expected_header)) as [->|Hne].
  - rewrite (parse_header _ _ Hl) in H. by eapply parse_lines_raises.
  - by rewrite (parse_wrong_header _ _ _ Hl Hne) in H.
Qed.

(** The loop raises what the first failing file raises. *)
Lemma collect_err_spl_first_fault fs1 : ∀ data_by_sample f fs2 lg e,
  Forall (λ g, is_some_result (outcome (parse_err_spl_report g)) = true) fs1 →
  parse_err_spl_report f = (lg, Raise e) →
  ∃ lg', collect_err_spl data_by_sample (fs1 ++ f :: fs2) = (lg', Raise e).
Proof.
  induction fs1 as [|g fs1 IH]; intros d f fs2 lg e Hok Hf.
  - exists lg. simpl app. by rewrite collect_err_spl_cons, Hf.
  - inversion Hok as [|? ? Hg Hrest]; subst.
    destruct (parse_err_spl_report g) as [lgg [m|e']] eqn:Hpg;
      [|discriminate Hg].
    rewrite <- app_comm_cons.
    rewrite (collect_err_spl_step d g (fs1 ++ f :: fs2) lgg m Hpg).
    destruct (IH (file_effect d (f_s_name g) m) f fs2 lg e Hrest Hf)
      as [lg'' ->].
    eauto.
Qed.

(** X8.  One log file that the parser cannot read stops the whole module:
    when the parse of a file raises (and the files before it were read),
    [parse_glimpse_err_spl] raises the same exception, nothing is filtered
    or rendered, and [MultiqcModule.__init__] raises it too, whatever the
    other files hold. *)
Theorem one_bad_file_stops_the_module (fs1 fs2 : list LogFile) (f : LogFile)
    (lg : list log_record) (e : exn)
    (ignore_samples :
       gmap string (gmap string record) → gmap string (gmap string record))
    (render : gmap string (gmap string record) → M unit)
    (parse_glimpse_err_grp : M Z) :
  Forall (λ g, is_some_result (outcome (parse_err_spl_report g)) = true) fs1 →
  parse_err_spl_report f = (lg, Raise e) →
  (e = IndexError ∨ e = ValueError) ∧
  ∃ lg',
    parse_glimpse_err_spl (fs1 ++ f :: fs2) ignore_samples render
    = (lg', Raise e) ∧
    MultiqcModule_init (fs1 ++ f :: fs2) ignore_samples render
                       parse_glimpse_err_grp
    = (lg', Raise e).
Proof.
  intros Hok Hf. split; [by eapply parse_err_spl_report_raises|].
  destruct (collect_err_spl_first_fault fs1 ∅ f fs2 lg e Hok Hf) as [lg' Hc].
  exists lg'. unfold MultiqcModule_init, parse_glimpse_err_spl.
  by rewrite Hc.
Qed.

Lemma one_bad_file_stops_the_module_witness :
  (ValueError = IndexError ∨ ValueError = ValueError) ∧
  ∃ lg',
    parse_glimpse_err_spl
      [ report "a" [example_line];
        report "b" ["GCsS 0 NA12878"];
        report "c" [second_line] ] id (λ _, mret tt)
    = (lg', Raise ValueError) ∧
    MultiqcModule_init
      [ report "a" [example_line];
        report "b" ["GCsS 0 NA12878"];
        report "c" [second_line] ] id (λ _, mret tt) (mret 0%Z)
    = (lg', Raise ValueError).
Proof.
  apply (one_bad_file_stops_the_module
           [report "a" [example_line]] [report "c" [second_line]]
           (report "b" ["GCsS 0 NA12878"])
           [LogRecord WARNING
              "Skipping line with 3 fields, expected 19: GCsS 0 NA12878"]
           ValueError id (λ _, mret tt) (mret 0%Z)).
  - repeat constructor.
  - vm_compute; reflexivity.
Defined.

Lemma collect_err_spl_app fs1 : ∀ data_by_sample fs2,
  collect_err_spl data_by_sample (fs1 ++ fs2)
  = (collect_err_spl data_by_sample fs1 ≫= λ d, collect_err_spl d fs2).
Proof.
  induction fs1 as [|f fs1 IH]; intros d fs2.
  - simpl app. change (collect_err_spl d []) with (mret d : M _).
    by rewrite bind_ok.
  - rewrite <- app_comm_cons.
    destruct (parse_err_spl_report f) as [lg [m|e]] eqn:Hp.
    + rewrite (collect_err_spl_step d f (fs1 ++ fs2) lg m Hp).
      rewrite (collect_err_spl_step d f fs1 lg m Hp), IH.
      destruct (collect_err_spl (file_effect d (f_s_name f) m) fs1)
        as [l1 [d1|e1]]; simpl.
      * destruct (collect_err_spl d1 fs2) as [l2 r2]. simpl.
        by rewrite !app_assoc.
      * done.
    + by rewrite !collect_err_spl_cons, Hp.
Qed.

Lemma metrics_of_ok f lg m :
  parse_err_spl_report f = (lg, Ok m) → metrics_of f = m.
Proof. unfold metrics_of. by intros ->. Qed.

(** When the loop returns, every file was read, and the data are the
    effects of the files in order. *)
Lemma collect_err_spl_ok files : ∀ data_by_sample lg data,
  collect_err_spl data_by_sample files = (lg, Ok data) →
  Forall (λ g, is_some_result (outcome (parse_err_spl_report g)) = true) files
  ∧ data = foldl file_step data_by_sample files.
Proof.
  induction files as [|f rest IH]; intros d lg data H.
  { split; [constructor|]. by inversion H. }
  destruct (parse_err_spl_report f) as [lgf [m|e]] eqn:Hp.
  - rewrite (collect_err_spl_step d f rest lgf m Hp) in H.
    destruct (collect_err_spl (file_effect d (f_s_name f) m) rest)
      as [l' r'] eqn:Hc. simpl in H. inversion H; subst.
    destruct (IH _ _ _ Hc) as [Hall ->]. split.
    + constructor; [by rewrite Hp | done].
    + simpl.
      assert (file_step d f = file_effect d (f_s_name f) m) as ->; [|done].
      unfold file_step. by rewrite (metrics_of_ok _ _ _ Hp).
  - by rewrite collect_err_spl_cons, Hp in H.
Qed.

Lemma file_step_lookup d f s m :
  file_step d f !! s = Some m →
  d !! s = Some m
  ∨ (f_s_name f = s ∧ metrics_of f = m ∧ (0 < size m)%nat).
Proof.
  unfold file_step, file_effect.
  destruct (0 <? size (metrics_of f))%nat eqn:Hs; [|by left].
  apply Nat.ltb_lt in Hs.
  destruct (decide (f_s_name f = s)) as [<-|Hne].
  - rewrite lookup_insert_eq. intros [= <-]. by right.
  - rewrite lookup_insert_ne by done. by left.
Qed.

Lemma foldl_file_step_lookup files : ∀ d s m,
  foldl file_step d files !! s = Some m →
  d !! s = Some m
  ∨ ∃ f, f ∈ files ∧ f_s_name f = s ∧ metrics_of f = m ∧ (0 < size m)%nat.
Proof.
  induction files as [|f rest IH]; intros d s m H; [by left|].
  simpl in H. apply IH in H as [H|(g & Hin & Hg)].
  - apply file_step_lookup in H as [H|H]; [by left|].
    right. exists f. split; [apply list_elem_of_here | done].
  - right. exists g. split; [by apply list_elem_of_further | done].
Qed.

(** X9.  Whatever the loop over the log files collects comes from a file:
    each key of [data_by_sample] is the name of one of the files, its value
    is the mapping parsed from that file, and this mapping is not empty.
    A file that parses to the empty mapping (one that does not start with
    the header, or holds comments only) is never registered. *)
Theorem collected_data_comes_from_files (files : list LogFile)
    (lg : list log_record) (data : gmap string (gmap string record))
    (s : string) (m : gmap string record) :
  collect_err_spl ∅ files = (lg, Ok data) →
  data !! s = Some m →
  m ≠ ∅ ∧
  ∃ f lgf, f ∈ files ∧ f_s_name f = s
           ∧ parse_err_spl_report f = (lgf, Ok m).
Proof.
  intros Hc Hs. destruct (collect_err_spl_ok _ _ _ _ Hc) as [Hall ->].
  apply foldl_file_step_lookup in Hs as [Hs|(f & Hin & Hn & Hm & Hsz)].
  { by rewrite lookup_empty in Hs. }
  split.
  - intros ->. rewrite map_size_empty in Hsz. lia.
  - rewrite Forall_forall in Hall. specialize (Hall f Hin).
    unfold metrics_of in Hm.
    destruct (parse_err_spl_report f) as [lgf [m'|e]] eqn:Hp;
      [|discriminate Hall].
    simpl in Hm. subst m'. by exists f, lgf.
Qed.

Lemma collected_data_comes_from_files_witness :
  ({[ "NA12878" := example_record ]} : gmap string record) ≠ ∅ ∧
  ∃ f lgf,
    f ∈ [ {| f_s_name := "x"; f_f := "no header" |};
          report "run1" [example_line] ]
    ∧ f_s_name f = "run1"
    ∧ parse_err_spl_report f = (lgf, Ok {[ "NA12878" := example_record ]}).
Proof.
  apply (collected_data_comes_from_files
           [ {| f_s_name := "x"; f_f := "no header" |};
             report "run1" [example_line] ]
           [LogRecord WARNING (header_message "no header")]
           {[ "run1" := {[ "NA12878" := example_record ]} ]}).
  - vm_compute; reflexivity.
  - vm_compute; reflexivity.
Defined.

(** ** The count that [parse_glimpse_err_spl] returns *)

Lemma file_step_size d f : (size (file_step d f) ≤ S (size d))%nat.
Proof.
  unfold file_step, file_effect.
  destruct (0 <? size (metrics_of f))%nat; [|lia].
  destruct (d !! f_s_name f) as [x|] eqn:Hx.
  - rewrite map_size_insert_Some by eauto. lia.
  - by rewrite map_size_insert_None.
Qed.

Lemma foldl_file_step_size files : ∀ d,
  (size (foldl file_step d files) ≤ size d + length files)%nat.
Proof.
  induction files as [|f rest IH]; intros d; simpl; [lia|].
  pose proof (IH (file_step d f)). pose proof (file_step_size d f). lia.
Qed.

(** X10.  [parse_glimpse_err_spl] never returns a positive count.  The
    loop keeps at most one entry per log file; when no entry is left after
    the filter the function returns 0; when some entry is left and the
    host's [add_software_version] and [write_data_file] return,
    [summary_table] raises [NameError], and so do the function and
    [MultiqcModule.__init__]. *)
Theorem count_is_never_positive (files : list LogFile)
    (ignore_samples :
       gmap string (gmap string record) → gmap string (gmap string record))
    (add_software_version : M unit)
    (write_data_file add_scatter_section :
       gmap string (gmap string record) → M unit)
    (parse_glimpse_err_grp : M Z)
    (lg : list log_record) (data : gmap string (gmap string record)) :
  collect_err_spl ∅ files = (lg, Ok data) →
  (size data ≤ length files)%nat ∧
  (ignore_samples data = ∅ →
     parse_glimpse_err_spl files ignore_samples
       (render_err_spl add_software_version write_data_file
                       add_scatter_section)
     = (lg, Ok 0%Z)) ∧
  (∀ lg' n,
     parse_glimpse_err_spl files ignore_samples
       (render_err_spl add_software_version write_data_file
                       add_scatter_section)
     = (lg', Ok n) →
     n = 0%Z ∧ ignore_samples data = ∅) ∧
  (ignore_samples data ≠ ∅ →
   ∀ lg1 lg2,
     add_software_version = (lg1, Ok tt) →
     write_data_file (ignore_samples data) = (lg2, Ok tt) →
     parse_glimpse_err_spl files ignore_samples
       (render_err_spl add_software_version write_data_file
                       add_scatter_section)
     = ((lg ++ lg1 ++ lg2)%list, Raise NameError) ∧
     MultiqcModule_init files ignore_samples
       (render_err_spl add_software_version write_data_file
                       add_scatter_section)
       parse_glimpse_err_grp
     = ((lg ++ lg1 ++ lg2)%list, Raise NameError)).
Proof.
  intros Hc. split.
  { destruct (collect_err_spl_ok _ _ _ _ Hc) as [_ ->].
    pose proof (foldl_file_step_size files ∅) as Hs.
    by rewrite map_size_empty in Hs. }
  unfold MultiqcModule_init, parse_glimpse_err_spl. rewrite Hc, bind_log_ok.
  destruct (Nat.eqb (size (ignore_samples data)) 0) eqn:Hsize.
  - apply Nat.eqb_eq, map_size_empty_inv in Hsize.
    split; [|split].
    + intros _. simpl. by rewrite app_nil_r.
    + intros lg' n [= _ <-]. done.
    + intros Hne. by destruct Hne.
  - apply Nat.eqb_neq in Hsize.
    split; [|split].
    + intros He. rewrite He, map_size_empty in Hsize. done.
    + intros lg' n. unfold render_err_spl, summary_table.
      destruct add_software_version as [l1 [[]|e1]]; [|discriminate].
      destruct (write_data_file (ignore_samples data)) as [l2 [[]|e2]];
        discriminate.
    + intros _ lg1 lg2 Hv Hw. unfold render_err_spl, summary_table.
      rewrite Hv, Hw. simpl. by rewrite !app_nil_r.
Qed.

(** One file with two samples, nothing ignored, a host that accepts the
    data: the module stops with [NameError]. *)
Lemma count_is_never_positive_witness :
  parse_glimpse_err_spl [report "run1" [example_line; other_sample_line]] id
    (render_err_spl (mret tt) (λ _, mret tt) (λ _, mret tt))
  = ([], Raise NameError) ∧
  MultiqcModule_init [report "run1" [example_line; other_sample_line]] id
    (render_err_spl (mret tt) (λ _, mret tt) (λ _, mret tt)) (mret 0%Z)
  = ([], Raise NameError).
Proof.
  destruct (count_is_never_positive
              [report "run1" [example_line; other_sample_line]] id
              (mret tt) (λ _, mret tt) (λ _, mret tt) (mret 0%Z) []
              {[ "run1" := foldl line_effect ∅
                             [example_line; other_sample_line] ]})
    as (_ & _ & _ & H).
  - vm_compute; reflexivity.
  - apply (H (map_non_empty_singleton _ _) [] []); reflexivity.
Defined.

(** ** Two log files with the same name *)

Lemma file_step_dom d f : dom d ⊆ dom (file_step d f).
Proof.
  unfold file_step, file_effect.
  destruct (0 <? size (metrics_of f))%nat; [|done].
  rewrite dom_insert_L. set_solver.
Qed.

(** A file with data whose name is already a key is announced at debug
    level. *)
Lemma collect_err_spl_debug files : ∀ d lg data f,
  collect_err_spl d files = (lg, Ok data) →
  f ∈ files → (0 < size (metrics_of f))%nat → f_s_name f ∈ dom d →
  LogRecord DEBUG (duplicate_message (f_s_name f)) ∈ lg.
Proof.
  induction files as [|g rest IH]; intros d lg data f Hc Hin Hsz Hdom.
  { by apply elem_of_nil in Hin. }
  destruct (parse_err_spl_report g) as [lgg [m|e]] eqn:Hp;
    [|by rewrite collect_err_spl_cons, Hp in Hc].
  rewrite (collect_err_spl_step d g rest lgg m Hp) in Hc.
  destruct (collect_err_spl (file_effect d (f_s_name g) m) rest)
    as [l' r'] eqn:Hrest.
  simpl in Hc. inversion Hc; subst. clear Hc.
  apply elem_of_app. right. apply elem_of_app.
  apply elem_of_cons in Hin as [->|Hin].
  - left. unfold duplicate_log.
    rewrite (metrics_of_ok _ _ _ Hp) in Hsz.
    apply Nat.ltb_lt in Hsz. rewrite Hsz.
    apply elem_of_dom in Hdom as [x ->]. simpl. apply list_elem_of_here.
  - right. eapply (IH _ _ _ f Hrest Hin Hsz).
    rewrite <- (metrics_of_ok _ _ _ Hp).
    by apply (file_step_dom d g).
Qed.

Lemma foldl_file_step_other files : ∀ d s,
  Forall (λ g, f_s_name g = s → size (metrics_of g) = 0%nat) files →
  foldl file_step d files !! s = d !! s.
Proof.
  induction files as [|g rest IH]; intros d s H; [done|].
  inversion H as [|? ? Hg Hrest]; subst. simpl. rewrite (IH _ _ Hrest).
  unfold file_step, file_effect.
  destruct (0 <? size (metrics_of g))%nat eqn:Hs; [|done].
  apply Nat.ltb_lt in Hs. apply lookup_insert_ne. intros Hn.
  specialize (Hg Hn). lia.
Qed.

(** X11.  When two log files with data have the same name, the later one
    overwrites the earlier one: the data hold the mapping of the later file
    under that name (no later file with data carrying the name again), and
    the duplicate is announced once more at debug level. *)
Theorem later_file_overwrites_earlier (fs1 fs2 fs3 : list LogFile)
    (f1 f2 : LogFile) (lg : list log_record)
    (data : gmap string (gmap string record)) :
  collect_err_spl ∅ (fs1 ++ f1 :: fs2 ++ f2 :: fs3) = (lg, Ok data) →
  f_s_name f1 = f_s_name f2 →
  (0 < size (metrics_of f1))%nat → (0 < size (metrics_of f2))%nat →
  Forall (λ g, f_s_name g = f_s_name f2 → size (metrics_of g) = 0%nat) fs3 →
  data !! f_s_name f2 = Some (metrics_of f2) ∧
  LogRecord DEBUG (duplicate_message (f_s_name f2)) ∈ lg.
Proof.
  intros Hc Hname Hs1 Hs2 H3. split.
  - destruct (collect_err_spl_ok _ _ _ _ Hc) as [_ ->].
    rewrite foldl_app. simpl. rewrite foldl_app. simpl.
    rewrite (foldl_file_step_other _ _ _ H3).
    unfold file_step at 1, file_effect.
    apply Nat.ltb_lt in Hs2. rewrite Hs2. apply lookup_insert_eq.
  - rewrite collect_err_spl_app in Hc.
    destruct (collect_err_spl ∅ fs1) as [la [d1|e1]] eqn:H1;
      [|discriminate Hc].
    rewrite bind_log_ok in Hc.
    destruct (collect_err_spl d1 (f1 :: fs2 ++ f2 :: fs3)) as [lb rb] eqn:Hb.
    simpl in Hc. inversion Hc; subst. clear Hc.
    apply elem_of_app. right.
    destruct (parse_err_spl_report f1) as [lg1 [m1|e]] eqn:Hp;
      [|by rewrite collect_err_spl_cons, Hp in Hb].
    rewrite (collect_err_spl_step d1 f1 _ lg1 m1 Hp) in Hb.
    destruct (collect_err_spl (file_effect d1 (f_s_name f1) m1)
                              (fs2 ++ f2 :: fs3)) as [lc rc] eqn:Hrest.
    simpl in Hb. inversion Hb; subst. clear Hb.
    apply elem_of_app. right. apply elem_of_app. right.
    eapply (collect_err_spl_debug _ _ _ _ f2 Hrest); [|done|].
    + apply elem_of_app. right. apply list_elem_of_here.
    + unfold file_effect. rewrite (metrics_of_ok _ _ _ Hp) in Hs1.
      apply Nat.ltb_lt in Hs1. rewrite Hs1, dom_insert_L, Hname.
      set_solver.
Qed.

Lemma later_file_overwrites_earlier_witness :
  ({[ "run" := {[ "NA12878" := second_record ]} ]}
     : gmap string (gmap string record)) !! "run"
  = Some (metrics_of (report "run" [second_line])) ∧
  LogRecord DEBUG (duplicate_message "run")
  ∈ [LogRecord DEBUG (duplicate_message "run")].
Proof.
  apply (later_file_overwrites_earlier
           [] [] [] (report "run" [example_line]) (report "run" [second_line])
           [LogRecord DEBUG (duplicate_message "run")]
           {[ "run" := {[ "NA12878" := second_record ]} ]}).
  - vm_compute; reflexivity.
  - reflexivity.
  - vm_compute; lia.
  - vm_compute; lia.
  - constructor.
Defined.

(** ** The test of line 43 *)

Lemma collect_err_spl_raises files : ∀ d lg e,
  collect_err_spl d files = (lg, Raise e) → e = IndexError ∨ e = ValueError.
Proof.
  induction files as [|f rest IH]; intros d lg e H; [discriminate|].
  destruct (parse_err_spl_report f) as [lgf [m|e']] eqn:Hp.
  - rewrite (collect_err_spl_step d f rest lgf m Hp) in H.
    destruct (collect_err_spl (file_effect d (f_s_name f) m) rest)
      as [l' r'] eqn:Hc. simpl in H. inversion H; subst. by eapply IH.
  - rewrite collect_err_spl_cons, Hp in H. inversion H; subst.
    by eapply parse_err_spl_report_raises.
Qed.

(** X12.  [MultiqcModule.__init__] never raises [ModuleNoSamplesFound]
    itself: when neither the rendering nor the sibling parser raises it and
    the sibling parser's count is not negative, the call does not end with
    this exception, whatever the log files hold. *)
Theorem no_samples_found_is_unreachable (files : list LogFile)
    (ignore_samples :
       gmap string (gmap string record) → gmap string (gmap string record))
    (render : gmap string (gmap string record) → M unit)
    (parse_glimpse_err_grp : M Z) :
  (∀ d, outcome (render d) ≠ Raise ModuleNoSamplesFound) →
  outcome parse_glimpse_err_grp ≠ Raise ModuleNoSamplesFound →
  (∀ n, outcome parse_glimpse_err_grp = Ok n → (0 <= n)%Z) →
  outcome (MultiqcModule_init files ignore_samples render
                              parse_glimpse_err_grp)
  ≠ Raise ModuleNoSamplesFound.
Proof.
  intros Hrender Hgrp Hn.
  destruct (parse_glimpse_err_spl files ignore_samples render)
    as [l1 [n1|e1]] eqn:H1.
  - pose proof (parse_glimpse_err_spl_count _ _ _ _ _ H1) as Hn1.
    unfold MultiqcModule_init. rewrite H1, bind_log_ok.
    destruct parse_glimpse_err_grp as [l2 [n2|e2]]; simpl in *.
    + specialize (Hn n2 eq_refl).
      destruct (1 + n1 + n2 =? 0)%Z eqn:Hz; [lia|]. simpl. discriminate.
    + intros [= ->]. by apply Hgrp.
  - unfold MultiqcModule_init. rewrite H1. simpl. intros [= ->].
    revert H1. unfold parse_glimpse_err_spl.
    destruct (collect_err_spl ∅ files) as [l [d|e]] eqn:Hc.
    + rewrite bind_log_ok.
      destruct (Nat.eqb (size (ignore_samples d)) 0); [discriminate|].
      specialize (Hrender (ignore_samples d)).
      destruct (render (ignore_samples d)) as [l' [[]|e]]; simpl in *;
        [discriminate|]. intros [= _ ->]. by apply Hrender.
    + intros [= _ ->].
      by destruct (collect_err_spl_raises _ _ _ _ Hc).
Qed.

Lemma no_samples_found_is_unreachable_witness :
  outcome (MultiqcModule_init [] id (λ _, mret tt) (mret 0%Z))
  ≠ Raise ModuleNoSamplesFound.
Proof.
  apply (no_samples_found_is_unreachable [] id (λ _, mret tt) (mret 0%Z)).
  - intros d. discriminate.
  - discriminate.
  - intros n [= <-]. lia.
Defined.

(** ** Whitespace around a line *)

Lemma lstrip_by_all p s : all_chars p s = true → Py.lstrip_by p s = "".
Proof.
  induction s as [|c s IH]; simpl; [done|].
  intros [-> Hs]%andb_true_iff. by apply IH.
Qed.

Lemma rstrip_by_all p s : all_chars p s = true → Py.rstrip_by p s = "".
Proof.
  induction s as [|c s IH]; simpl; [done|].
  intros [-> Hs]%andb_true_iff. by rewrite (IH Hs).
Qed.

Lemma lstrip_by_padding p pre s :
  all_chars p pre = true → Py.lstrip_by p (pre +:+ s) = Py.lstrip_by p s.
Proof.
  induction pre as [|c pre IH]; [done|]. rewrite append_cons. simpl.
  intros [-> Hs]%andb_true_iff. by apply IH.
Qed.

Lemma rstrip_by_padding p s post :
  all_chars p post = true → Py.rstrip_by p (s +:+ post) = Py.rstrip_by p s.
Proof.
  intros Hp. induction s as [|c s IH].
  - by apply rstrip_by_all.
  - rewrite append_cons. simpl. by rewrite IH.
Qed.

Lemma strip_by_padding p pre s post :
  all_chars p pre = true → all_chars p post = true →
  Py.strip_by p (pre +:+ s +:+ post) = Py.strip_by p s.
Proof.
  intros Hpre Hpost. unfold Py.strip_by. rewrite lstrip_by_padding by done.
  clear pre Hpre. induction s as [|c s IH].
  - simpl. by rewrite lstrip_by_all.
  - rewrite append_cons. simpl. destruct (p c); [exact IH|].
    rewrite <- append_cons. by apply rstrip_by_padding.
Qed.

(** The outcome of a sequence does not depend on what its steps log. *)
Lemma outcome_bind {A B : Type} (m : M A) (k : A → M B) :
  outcome (m ≫= k)
  = match outcome m with Ok a => outcome (k a) | Raise e => Raise e end.
Proof.
  destruct m as [l [a|e]]; [|done].
  unfold outcome, mbind, M_bind. simpl. by destruct (k a).
Qed.

(** X13.  Whitespace before and after a line does not change how the line
    is read: the padded line has the same tokens, the loop body ends on it
    as on the bare line (the same mapping or the same exception), and it is
    an accepted data line exactly when the bare line is, with the same
    sample name and record. *)
Theorem padding_is_ignored (pre line post : string)
    (parsed_data : gmap string record) :
  all_chars Py.isspace pre = true →
  all_chars Py.isspace post = true →
  fields_of (pre +:+ line +:+ post) = fields_of line ∧
  outcome (parse_line parsed_data (pre +:+ line +:+ post))
  = outcome (parse_line parsed_data line) ∧
  accepted (pre +:+ line +:+ post) = accepted line.
Proof.
  intros Hpre Hpost.
  assert (Py.strip (pre +:+ line +:+ post) = Py.strip line) as Hs.
  { by apply strip_by_padding. }
  assert (fields_of (pre +:+ line +:+ post) = fields_of line) as Hf.
  { unfold fields_of. by rewrite Hs. }
  split; [done|]. split.
  - unfold parse_line. rewrite Hs.
    destruct (Py.split " " (Py.strip line)) as [|[|c t] ts]; try done.
    destruct (Ascii.eqb c "#"); [done|].
    by destruct (negb _); rewrite !outcome_bind.
  - unfold accepted, is_blank, is_comment. by rewrite Hs, Hf.
Qed.

Lemma padding_is_ignored_witness :
  fields_of (String "009" " " +:+ example_line +:+ " " +:+ String "160" "")
  = fields_of example_line ∧
  outcome (parse_line ∅ (String "009" " " +:+ example_line +:+ " "
                         +:+ String "160" ""))
  = outcome (parse_line ∅ example_line) ∧
  accepted (String "009" " " +:+ example_line +:+ " " +:+ String "160" "")
  = accepted example_line.
Proof.
  apply (padding_is_ignored (String "009" " ") example_line
                            (" " +:+ String "160" "") ∅);
    reflexivity.
Defined.

(** ** Line endings *)

Lemma splitlines_first_line_crlf a b :
  all_chars (λ c, negb (Py.is_linebreak c)) a = true →
  Py.splitlines (a +:+ CRLF +:+ b) = a :: Py.splitlines b.
Proof.
  induction a as [|c a IH]; [done|]. rewrite append_cons. simpl.
  intros [Hc%negb_true_iff Ha]%andb_true_iff. by rewrite Hc, (IH Ha).
Qed.

Lemma splitlines_join_crlf lines :
  Forall (λ l, all_chars (λ c, negb (Py.is_linebreak c)) l = true) lines →
  Py.splitlines (join_with CRLF lines) = Py.splitlines (Py.join "010" lines).
Proof.
  induction 1 as [|l ls Hl Hls IH]; [done|].
  destruct ls as [|l' ls']; [done|].
  change (join_with CRLF (l :: l' :: ls'))
    with (l +:+ CRLF +:+ join_with CRLF (l' :: ls')).
  change (Py.join "010" (l :: l' :: ls'))
    with (l +:+ String "010" (Py.join "010" (l' :: ls'))).
  by rewrite splitlines_first_line_crlf, splitlines_first_line, IH.
Qed.

(** X14.  Line endings CR LF are read like LF: the same lines joined by
    CR LF and joined by LF parse to the same result, with the same
    messages. *)
Theorem crlf_parses_like_lf (s_name : string) (lines : list string) :
  Forall (λ l, all_chars (λ c, negb (Py.is_linebreak c)) l = true) lines →
  parse_err_spl_report
    {| f_s_name := s_name; f_f := join_with CRLF (expected_header :: lines) |}
  = parse_err_spl_report (report s_name lines).
Proof.
  intros H. unfold parse_err_spl_report, report, f_f.
  rewrite splitlines_join_crlf; [done|]. by constructor.
Qed.

Lemma crlf_parses_like_lf_witness :
  parse_err_spl_report
    {| f_s_name := "NA12878";
       f_f := join_with CRLF [expected_header; example_line; second_line] |}
  = parse_err_spl_report (report "NA12878" [example_line; second_line]).
Proof.
  apply (crlf_parses_like_lf "NA12878" [example_line; second_line]).
  repeat constructor.
Defined.

(** A line feed at the end of a text that does not end with a line boundary
    adds no line. *)
Lemma splitlines_final_line_feed n : ∀ s c,
  (String.length s ≤ n)%nat → Py.is_linebreak c = false →
  Py.splitlines ((s +:+ String c "") +:+ LF)
  = Py.splitlines (s +:+ String c "").
Proof.
  induction n as [|n IH]; intros s c Hn Hc.
  { destruct s; [|simpl in Hn; lia]. simpl. by rewrite Hc. }
  destruct s as [|a s]; [simpl; by rewrite Hc|].
  simpl in Hn. rewrite !append_cons.
  change (Py.splitlines (String a ((s +:+ String c "") +:+ LF)))
    with (if Py.is_linebreak a then
            if Ascii.eqb a "013" then
              match (s +:+ String c "") +:+ LF with
              | String c' rest' =>
                  if Ascii.eqb c' "010" then "" :: Py.splitlines rest'
                  else "" :: Py.splitlines ((s +:+ String c "") +:+ LF)
              | EmptyString =>
                  "" :: Py.splitlines ((s +:+ String c "") +:+ LF)
              end
            else "" :: Py.splitlines ((s +:+ String c "") +:+ LF)
          else match Py.splitlines ((s +:+ String c "") +:+ LF) with
               | [] => [String a ""]
               | l :: ls => String a l :: ls
               end).
  change (Py.splitlines (String a (s +:+ String c "")))
    with (if Py.is_linebreak a then
            if Ascii.eqb a "013" then
              match s +:+ String c "" with
              | String c' rest' =>
                  if Ascii.eqb c' "010" then "" :: Py.splitlines rest'
                  else "" :: Py.splitlines (s +:+ String c "")
              | EmptyString => "" :: Py.splitlines (s +:+ String c "")
              end
            else "" :: Py.splitlines (s +:+ String c "")
          else match Py.splitlines (s +:+ String c "") with
               | [] => [String a ""]
               | l :: ls => String a l :: ls
               end).
  rewrite (IH s c) by (done || lia).
  destruct (Py.is_linebreak a); [|done].
  destruct (Ascii.eqb a "013"); [|done].
  destruct s as [|b s'].
  - simpl. destruct (Ascii.eqb_spec c "010") as [->|]; [discriminate Hc|done].
  - rewrite !append_cons. destruct (Ascii.eqb b "010"); [|done].
    simpl in Hn. by rewrite (IH s' c) by (done || lia).
Qed.

(** X15.  A final line feed does not matter: a text that is not empty and
    does not end with a line boundary parses to the same result, with the
    same messages, when one line feed is added at its end. *)
Theorem final_line_feed_is_ignored (s_name text : string) (c : ascii) :
  Py.is_linebreak c = false →
  parse_err_spl_report
    {| f_s_name := s_name; f_f := (text +:+ String c "") +:+ LF |}
  = parse_err_spl_report
      {| f_s_name := s_name; f_f := text +:+ String c "" |}.
Proof.
  intros Hc. unfold parse_err_spl_report, f_f.
  by rewrite (splitlines_final_line_feed (String.length text)).
Qed.

Lemma final_line_feed_is_ignored_witness :
  parse_err_spl_report
    {| f_s_name := "NA12878";
       f_f := (expected_header +:+ LF
               +:+ "GCsS 0 NA12878 851 3 0 0 602 0 0 3 1 0 0.496 100.000 0.000 100.000 0.000008 0.00000"
               +:+ "8") +:+ LF |}
  = parse_err_spl_report
      {| f_s_name := "NA12878";
         f_f := expected_header +:+ LF
                +:+ "GCsS 0 NA12878 851 3 0 0 602 0 0 3 1 0 0.496 100.000 0.000 100.000 0.000008 0.00000"
                +:+ "8" |}.
Proof.
  assert (∀ a b c : string, a +:+ b +:+ c +:+ "8"
                            = (a +:+ b +:+ c) +:+ "8") as Hassoc.
  { intros a b c. by rewrite !append_assoc. }
  rewrite !Hassoc.
  apply (final_line_feed_is_ignored "NA12878" _ "8"). reflexivity.
Defined.

(** ** The keys that the summary table asks for *)

(** X16.  Against every record that the parser builds: seventeen of the
    eighteen keys of the summary table's headers are fields of the record,
    the header key [AA_hom_mimatches] is not, and the record's field
    [AA_hom_mismatches_rate_percent] is the one field without a header. *)
Theorem summary_headers_against_records (line k : string) (r : record) :
  accepted line = Some (k, r) →
  Forall (λ h, is_Some (record_get h r) ↔ h ≠ "AA_hom_mimatches")
         SUMMARY_HEADERS ∧
  Forall (λ f, f ∈ SUMMARY_HEADERS ↔ f ≠ "AA_hom_mismatches_rate_percent")
         r.*1.
Proof.
  intros H. split.
  - pose proof (accepted_length _ _ H) as Hn.
    apply accepted_fields in H. revert H Hn.
    generalize (fields_of line) as fields. intros fields H Hn.
    nineteen fields; try discriminate Hn. clear Hn. revert H.
    unfold parse_fields. repeat (coerce_step; [|discriminate]).
    intros [= <- <-]. unfold SUMMARY_HEADERS.
    repeat (apply Forall_cons; split;
            [simpl; split;
               [first [done | intros [? [=]]]
               | intros Hne; first [by eauto | by destruct Hne]]
            |]).
    constructor.
  - rewrite (accepted_record_keys _ _ _ H).
    apply (bool_decide_unpack
             (Forall (λ f, f ∈ SUMMARY_HEADERS
                           ↔ f ≠ "AA_hom_mismatches_rate_percent")
                     RECORD_KEYS)).
    vm_compute. exact I.
Qed.

Lemma summary_headers_against_records_witness :
  Forall (λ h, is_Some (record_get h example_record) ↔ h ≠ "AA_hom_mimatches")
         SUMMARY_HEADERS ∧
  Forall (λ f, f ∈ SUMMARY_HEADERS ↔ f ≠ "AA_hom_mismatches_rate_percent")
         example_record.*1.
Proof.
  apply (summary_headers_against_records example_line "NA12878"
                                         example_record).
  exact example_accepted.
Defined.
